(** * clock_solver.py: the angle between the hands of a clock

    A shallow embedding of [src/clock_solver.py].  Python's [int] is [Z],
    Python's [float] is the kernel's binary64 [float] (the same IEEE 754
    format CPython uses), a raised exception is the [Raise] branch of
    [result], and what the fixture runner prints and logs is a trace of
    [event]s.  The file system and [json.load] are a parameter, the [world]. *)

From Stdlib Require Import ZArith List String Ascii Bool Lia QArith Qabs Qminmax.
From Stdlib Require Import DecimalString.
From Stdlib Require Import Floats.
Import ListNotations.

Set Warnings "-inexact-float,-register-all".

Local Open Scope string_scope.
Local Open Scope Z_scope.

(** ** Python values and exceptions *)

(** The values [json.load] can produce.  A [dict] built by [json.load] has
    unique keys, so the association list is looked up by first match. *)
Inductive pyval : Type :=
| PNone
| PBool (b : bool)
| PInt (z : Z)
| PFloat (f : float)
| PStr (s : string)
| PList (items : list pyval)
| PDict (kvs : list (string * pyval)).

(** [ValueError msg v] is [ValueError(f"{msg}{v}")]: the literal text of the
    message followed by the offending value. *)
Inductive pyexn : Type :=
| ValueError (msg : string) (v : pyval)
| TypeError
| AttributeError
| OverflowError
| ZeroDivisionError
| JSONDecodeError
| OtherError (name : string).

Inductive result (A : Type) : Type :=
| Ok (a : A)
| Raise (e : pyexn).
Arguments Ok {A} a.
Arguments Raise {A} e.

Definition bind {A B} (r : result A) (k : A -> result B) : result B :=
  match r with
  | Ok a => k a
  | Raise e => Raise e
  end.

Declare Scope py_scope.
Delimit Scope py_scope with py.
Notation "x <- c ;; k" := (bind c (fun x => k))
  (at level 61, c at next level, right associativity) : py_scope.
Notation "'check' c 'orelse' e ;; k" := (bind c (fun b : bool => if b then k else Raise e))
  (at level 61, c at next level, e at next level, right associativity) : py_scope.

(** ** Numbers *)

(** The numeric values: [bool] is a subclass of [int] and counts as 0 or 1 in
    arithmetic and comparisons. *)
Inductive num : Type :=
| NInt (z : Z)
| NFloat (f : float).

Definition as_num (v : pyval) : option num :=
  match v with
  | PBool b => Some (NInt (Z.b2z b))
  | PInt z => Some (NInt z)
  | PFloat f => Some (NFloat f)
  | _ => None
  end.

Module Float64.

(** [int] to [float], correctly rounded (round half to even); an [int] beyond
    the range of binary64 raises [OverflowError]. *)
Definition of_Z_rounded (z : Z) : spec_float := binary_normalize prec emax z 0 false.

Definition of_int (z : Z) : result float :=
  match of_Z_rounded z with
  | S754_infinity _ => Raise OverflowError
  | sf => Ok (SF2Prim sf)
  end.

(** The exact value of a finite float as a rational. *)
Definition to_Q (f : float) : option Q :=
  match Prim2SF f with
  | S754_zero _ => Some 0%Q
  | S754_finite s m e =>
      let a := if s then Z.neg m else Z.pos m in
      Some (if 0 <=? e then inject_Z (a * 2 ^ e) else Qmake a (Z.to_pos (2 ^ (- e))))
  | _ => None
  end.

(** [math.fmod x y] for finite [x] and finite non-zero [y]: the exact
    remainder, with the sign of [x]. *)
Definition fmod (x y : float) : float :=
  match Prim2SF x, Prim2SF y with
  | S754_finite sx mx ex, S754_finite _ my ey =>
      let e := Z.min ex ey in
      let r := Z.rem (Z.pos mx * 2 ^ (ex - e)) (Z.pos my * 2 ^ (ey - e)) in
      SF2Prim (binary_normalize prec emax (if sx then - r else r) e sx)
  | S754_zero _, S754_finite _ _ _ => x
  | S754_finite _ _ _, S754_infinity _ => x
  | S754_zero _, S754_infinity _ => x
  | _, _ => nan
  end.

(** [x % y] on floats ([float_rem] of CPython) for [y] non-zero: the
    remainder takes the sign of [y]. *)
Definition py_mod (x y : float) : float :=
  let m := fmod x y in
  if (m =? 0)%float then (if (y <? 0)%float then (- 0)%float else 0%float)
  else if xorb (y <? 0)%float (m <? 0)%float then (m + y)%float else m.

(** Nearest integer to [n / d], ties to even, for [d > 0]. *)
Definition round_half_even (n d : Z) : Z :=
  let q := n / d in
  match 2 * (n mod d) ?= d with
  | Lt => q
  | Gt => q + 1
  | Eq => if Z.even q then q else q + 1
  end.

(** [k / 10^ndigits] as the nearest float, for [k > 0]. *)
Definition of_decimal (s : bool) (k : positive) (ndigits : Z) : float :=
  SF2Prim (SFdiv prec emax (S754_finite s k 0)
                           (S754_finite false (Z.to_pos (10 ^ ndigits)) 0)).

(** [round(x, ndigits)] on a float, for [ndigits >= 0] ([float.__round__] of
    CPython): the exact value of [x] is rounded to [ndigits] decimal places,
    ties to even, and the decimal result is read back as the nearest float.
    Zeros, infinities and NaN are returned as they are. *)
Definition round (x : float) (ndigits : Z) : float :=
  match Prim2SF x with
  | S754_finite s m e =>
      let n := Z.pos m * 10 ^ ndigits * 2 ^ Z.max e 0 in
      let d := 2 ^ Z.max (- e) 0 in
      match round_half_even n d with
      | Z.pos k => of_decimal s k ndigits
      | _ => if s then (- 0)%float else 0%float
      end
  | _ => x
  end.

(** [int <= float] and [float <= int], compared exactly as CPython does. *)
Definition int_le (z : Z) (f : float) : bool :=
  match Prim2SF f with
  | S754_nan => false
  | S754_infinity s => negb s
  | _ => match to_Q f with Some q => Qle_bool (inject_Z z) q | None => false end
  end.

Definition le_int (f : float) (z : Z) : bool :=
  match Prim2SF f with
  | S754_nan => false
  | S754_infinity s => s
  | _ => match to_Q f with Some q => Qle_bool q (inject_Z z) | None => false end
  end.

(** An [int] as an exact, not yet rounded, operand of a division. *)
Definition exact_int (z : Z) : spec_float :=
  match z with
  | Z0 => S754_zero false
  | Z.pos p => S754_finite false p 0
  | Z.neg p => S754_finite true p 0
  end.

End Float64.

(** ** Arithmetic and comparison on numbers, with Python's coercions *)

Definition to_float (n : num) : result float :=
  match n with
  | NInt z => Float64.of_int z
  | NFloat f => Ok f
  end.

Definition num_is_zero (n : num) : bool :=
  match n with
  | NInt z => z =? 0
  | NFloat f => (f =? 0)%float
  end.

Definition num_mul (a b : num) : result num :=
  match a, b with
  | NInt x, NInt y => Ok (NInt (x * y))
  | _, _ => (x <- to_float a ;; y <- to_float b ;; Ok (NFloat (x * y)))%py
  end.

Definition num_add (a b : num) : result num :=
  match a, b with
  | NInt x, NInt y => Ok (NInt (x + y))
  | _, _ => (x <- to_float a ;; y <- to_float b ;; Ok (NFloat (x + y)))%py
  end.

Definition num_sub (a b : num) : result num :=
  match a, b with
  | NInt x, NInt y => Ok (NInt (x - y))
  | _, _ => (x <- to_float a ;; y <- to_float b ;; Ok (NFloat (x - y)))%py
  end.

(** [a / b], true division. *)
Definition num_div (a b : num) : result num :=
  if num_is_zero b then Raise ZeroDivisionError else
  match a, b with
  | NInt x, NInt y =>
      match SFdiv prec emax (Float64.exact_int x) (Float64.exact_int y) with
      | S754_infinity _ => Raise OverflowError
      | q => Ok (NFloat (SF2Prim q))
      end
  | _, _ => (x <- to_float a ;; y <- to_float b ;; Ok (NFloat (x / y)))%py
  end.

(** [a % b]: the result takes the sign of [b]. *)
Definition num_mod (a b : num) : result num :=
  if num_is_zero b then Raise ZeroDivisionError else
  match a, b with
  | NInt x, NInt y => Ok (NInt (x mod y))
  | _, _ => (x <- to_float a ;; y <- to_float b ;; Ok (NFloat (Float64.py_mod x y)))%py
  end.

Definition num_abs (a : num) : num :=
  match a with
  | NInt x => NInt (Z.abs x)
  | NFloat x => NFloat (abs x)
  end.

Definition num_le (a b : num) : bool :=
  match a, b with
  | NInt x, NInt y => x <=? y
  | NInt x, NFloat y => Float64.int_le x y
  | NFloat x, NInt y => Float64.le_int x y
  | NFloat x, NFloat y => (x <=? y)%float
  end.

(** [a < b]; on a float and an int, [a < b] is [not (b <= a)] unless the float
    is NaN, which compares false with everything. *)
Definition num_lt (a b : num) : bool :=
  match a, b with
  | NInt x, NInt y => x <? y
  | NInt x, NFloat y => negb (is_nan y) && negb (Float64.le_int y x)
  | NFloat x, NInt y => negb (is_nan x) && negb (Float64.int_le y x)
  | NFloat x, NFloat y => (x <? y)%float
  end.

(** [min(a, b)]: the first argument unless the second is smaller. *)
Definition py_min (a b : num) : num := if num_lt b a then b else a.

(** [round(a, ndigits)] for [ndigits >= 0]: an [int] is returned unchanged. *)
Definition py_round (a : num) (ndigits : Z) : num :=
  match a with
  | NInt x => NInt x
  | NFloat x => NFloat (Float64.round x ndigits)
  end.

(** A comparison of a number with a value that is not a number (None, a
    string, a list, a dict) raises [TypeError]. *)
Definition numeric (v : pyval) : result num :=
  match as_num v with
  | Some n => Ok n
  | None => Raise TypeError
  end.

(** The chained comparison [lo <= v <= hi] with [int] literals [lo], [hi]:
    [lo <= v and v <= hi], the second test only when the first holds. *)
Definition between (lo : Z) (v : pyval) (hi : Z) : result bool :=
  (n <- numeric v ;;
   if num_le (NInt lo) n then Ok (num_le n (NInt hi)) else Ok false)%py.

(** ** calculate_clock_angle *)

(** Lines 48-52: the smaller arc between two hand positions, rounded. *)
Definition smallest_angle (hour_angle minute_angle : num) : result num :=
  (d <- num_sub hour_angle minute_angle ;;
   let diff := num_abs d in
   rest <- num_sub (NInt 360) diff ;;
   let final_angle := py_min diff rest in
   Ok (py_round final_angle 4))%py.

Definition hour_angle_of (adjusted_hours minutes seconds : num) : result num :=
  (a <- num_mul adjusted_hours (NInt 30) ;;
   b <- num_mul minutes (NFloat 0.5) ;;
   ab <- num_add a b ;;
   k <- num_div (NFloat 0.5) (NInt 60) ;;
   c <- num_mul seconds k ;;
   num_add ab c)%py.

Definition minute_angle_of (minutes seconds : num) : result num :=
  (a <- num_mul minutes (NInt 6) ;;
   b <- num_mul seconds (NFloat 0.1) ;;
   num_add a b)%py.

Definition calculate_clock_angle (hours minutes seconds : pyval) : result num :=
  (check between 0 hours 23
     orelse ValueError "Hours must be between 0 and 23, got " hours ;;
   check between 0 minutes 59
     orelse ValueError "Minutes must be between 0 and 59, got " minutes ;;
   check between 0 seconds 59
     orelse ValueError "Seconds must be between 0 and 59, got " seconds ;;
   hours <- numeric hours ;;
   minutes <- numeric minutes ;;
   seconds <- numeric seconds ;;
   adjusted_hours <- num_mod hours (NInt 12) ;;
   hour_angle <- hour_angle_of adjusted_hours minutes seconds ;;
   minute_angle <- minute_angle_of minutes seconds ;;
   smallest_angle hour_angle minute_angle)%py.

(** ** run_tests_from_file *)

(** What [print] writes: the two fixed lines as text, a table row and a
    per-case error line by their fields (the rendering of a float by
    [format] is not modelled). *)
Inductive line : Type :=
| Text (s : string)
| Row (h m s expected : pyval) (actual : num) (status : string)
| ErrorLine (h m s : pyval) (e : pyexn).

Inductive level : Type := ERROR | INFO.

Inductive event : Type :=
| Print (l : line)
| Log (lvl : level) (msg : string).

(** The environment: [os.path.exists], and the block
    [with open(filepath, 'r', encoding='utf-8') as f: json.load(f)], which
    returns the parsed value or raises ([JSONDecodeError] when the text is not
    JSON; anything else the operating system or the decoder raises). *)
Record world : Type := {
  path_exists : string -> bool;
  load_json : string -> result pyval
}.

(** A computation that prints and logs, and returns or raises. *)
Definition io (A : Type) : Type := list event * result A.

Definition ret {A} (a : A) : io A := ([], Ok a).
Definition lift {A} (r : result A) : io A := ([], r).
Definition emit (e : event) : io unit := ([e], Ok tt).

Definition io_bind {A B} (c : io A) (k : A -> io B) : io B :=
  match c with
  | (out, Ok a) => let (out', r) := k a in ((out ++ out')%list, r)
  | (out, Raise e) => (out, Raise e)
  end.

(** [try: body except ValueError as e: handler e]. *)
Definition try_except_ValueError {A} (body : io A) (handler : pyexn -> io A) : io A :=
  match body with
  | (out, Raise (ValueError msg v)) =>
      let (out', r) := handler (ValueError msg v) in ((out ++ out')%list, r)
  | other => other
  end.

Declare Scope io_scope.
Delimit Scope io_scope with io.
Notation "x <- c ;; k" := (io_bind c (fun x => k))
  (at level 61, c at next level, right associativity) : io_scope.
Notation "c ;; k" := (io_bind c (fun _ => k))
  (at level 61, right associativity) : io_scope.

(** [case.get(key, default)]: only a dict has [get]. *)
Definition dict_get (case : pyval) (key : string) (default : pyval) : result pyval :=
  match case with
  | PDict kvs =>
      Ok match find (fun kv => String.eqb (fst kv) key) kvs with
         | Some kv => snd kv
         | None => default
         end
  | _ => Raise AttributeError
  end.

(** [for case in test_cases]: a list gives its items, a dict its keys, a
    string its characters (here the bytes of the text; every one of them is a
    [str], which is all the loop body can tell); nothing else is iterable. *)
Definition py_iter (v : pyval) : result (list pyval) :=
  match v with
  | PList items => Ok items
  | PDict kvs => Ok (map (fun kv => PStr (fst kv)) kvs)
  | PStr s => Ok (map (fun c => PStr (String c EmptyString)) (list_ascii_of_string s))
  | _ => Raise TypeError
  end.

(** [str] of an [int]. *)
Definition str_int (z : Z) : string := NilZero.string_of_int (Z.to_int z).

(** [str(v)] for the values whose text this model renders. *)
Definition py_str (v : pyval) : option string :=
  match v with
  | PNone => Some "None"
  | PBool b => Some (if b then "True" else "False")
  | PInt z => Some (str_int z)
  | PStr s => Some s
  | _ => None
  end.

(** [str(e)] for a [ValueError] of [calculate_clock_angle]. *)
Definition exn_message (e : pyexn) : option string :=
  match e with
  | ValueError msg v => option_map (append msg) (py_str v)
  | _ => None
  end.

(** [text.ljust(width)], the format [<width] on a string. *)
Definition ljust (text : string) (width : nat) : string :=
  text ++ string_of_list_ascii (repeat " "%char (width - String.length text)).

Definition header : string :=
  ljust "Time (H:M:S)" 15 ++ " | " ++ ljust "Expected" 10 ++ " | "
  ++ ljust "Actual" 10 ++ " | " ++ "Status".

Definition separator : string := string_of_list_ascii (repeat "-"%char 55).

(** Line 84: [abs(actual - expected) < 0.01]. *)
Definition is_correct_of (actual : num) (expected : pyval) : result bool :=
  (e <- numeric expected ;;
   d <- num_sub actual e ;;
   Ok (num_lt (num_abs d) (NFloat 0.01)))%py.

(** Lines 82-91, the body of the [try]. *)
Definition try_body (h m s expected : pyval) (passed : Z) : io Z :=
  (actual <- lift (calculate_clock_angle h m s) ;;
   is_correct <- lift (is_correct_of actual expected) ;;
   let status := if is_correct then "PASS" else "FAIL" in
   let passed := if is_correct then passed + 1 else passed in
   emit (Print (Row h m s expected actual status)) ;;
   ret passed)%io.

(** Lines 76-94, one turn of the loop; returns the new [passed]. *)
Definition run_case (case : pyval) (passed : Z) : io Z :=
  (h <- lift (dict_get case "hours" PNone) ;;
   m <- lift (dict_get case "minutes" PNone) ;;
   s <- lift (dict_get case "seconds" (PInt 0)) ;;
   expected <- lift (dict_get case "expected_angle" PNone) ;;
   try_except_ValueError
     (try_body h m s expected passed)
     (fun e => emit (Print (ErrorLine h m s e)) ;; ret passed))%io.

Fixpoint run_cases (cases : list pyval) (passed : Z) : io Z :=
  match cases with
  | [] => ret passed
  | case :: rest => (passed' <- run_case case passed ;; run_cases rest passed')%io
  end.

Definition summary (passed total : Z) : string :=
  "Test Run Complete: " ++ str_int passed ++ "/" ++ str_int total ++ " passed.".

Definition run_tests_from_file (w : world) (filepath : string) : io unit :=
  if negb (path_exists w filepath) then
    emit (Log ERROR ("Файл не знайдено: " ++ filepath))
  else
    match load_json w filepath with
    | Raise JSONDecodeError =>
        emit (Log ERROR ("Помилка читання JSON: " ++ filepath))
    | Raise e => lift (Raise e)
    | Ok test_cases =>
        (emit (Print (Text header)) ;;
         emit (Print (Text separator)) ;;
         cases <- lift (py_iter test_cases) ;;
         passed <- run_cases cases 0 ;;
         emit (Print (Text separator)) ;;
         emit (Log INFO (summary passed (Z.of_nat (List.length cases)))))%io
    end.

Definition main (w : world) : io unit := run_tests_from_file w "clock_test_data.json".

(** ** What the report should be, case by case *)

Inductive verdict : Type :=
| Pass (actual : num)
| Fail (actual : num)
| Invalid (e : pyexn)
| Crash (e : pyexn).

(** The fields the loop reads from a record. *)
Definition fields (case : pyval) : result (pyval * pyval * pyval * pyval) :=
  (h <- dict_get case "hours" PNone ;;
   m <- dict_get case "minutes" PNone ;;
   s <- dict_get case "seconds" (PInt 0) ;;
   expected <- dict_get case "expected_angle" PNone ;;
   Ok (h, m, s, expected))%py.

Definition judge (case : pyval) : verdict :=
  match fields case with
  | Raise e => Crash e
  | Ok (h, m, s, expected) =>
      match calculate_clock_angle h m s with
      | Raise (ValueError msg v) => Invalid (ValueError msg v)
      | Raise e => Crash e
      | Ok actual =>
          match is_correct_of actual expected with
          | Raise e => Crash e
          | Ok true => Pass actual
          | Ok false => Fail actual
          end
      end
  end.

Definition is_pass (case : pyval) : bool :=
  match judge case with Pass _ => true | _ => false end.

Definition crashes (case : pyval) : bool :=
  match judge case with Crash _ => true | _ => false end.

Definition count_pass (cases : list pyval) : Z :=
  Z.of_nat (List.length (filter is_pass cases)).

(** The line printed for a record that does not crash the run. *)
Definition report_line (case : pyval) : list event :=
  match fields case, judge case with
  | Ok (h, m, s, expected), Pass actual => [Print (Row h m s expected actual "PASS")]
  | Ok (h, m, s, expected), Fail actual => [Print (Row h m s expected actual "FAIL")]
  | Ok (h, m, s, expected), Invalid e => [Print (ErrorLine h m s e)]
  | _, _ => []
  end.

(** ** The angle as the specification words it, over the rationals *)

Module Spec.
Local Open Scope Q_scope.

Definition hour_position (hours minutes seconds : Z) : Q :=
  30 * inject_Z (hours mod 12) + (1 # 2) * inject_Z minutes
  + ((1 # 2) / 60) * inject_Z seconds.

Definition minute_position (minutes seconds : Z) : Q :=
  6 * inject_Z minutes + (1 # 10) * inject_Z seconds.

Definition diff (hours minutes seconds : Z) : Q :=
  Qabs (hour_position hours minutes seconds - minute_position minutes seconds).

Definition angle (hours minutes seconds : Z) : Q :=
  Qmin (diff hours minutes seconds) (360 - diff hours minutes seconds).

(** [q] rounded to 4 decimal places, ties to even, in units of 1/10000. *)
Definition round4 (q : Q) : Z :=
  Float64.round_half_even (Qnum q * 10 ^ 4) (Z.pos (Qden q)).

(** The float nearest to [k / 10000], for [k >= 0]. *)
Definition nearest_float (k : Z) : float :=
  match k with
  | Z.pos p => Float64.of_decimal false p 4
  | _ => 0%float
  end.
End Spec.

(** ** Valid inputs, and checking a property on all of them *)

Definition valid_time (hours minutes seconds : Z) : Prop :=
  0 <= hours <= 23 /\ 0 <= minutes <= 59 /\ 0 <= seconds <= 59.

(** The [n] integers from [start] on; [upto n] is [0, 1, ..., n - 1]. *)
Fixpoint count_from (start : Z) (n : nat) : list Z :=
  match n with
  | O => []
  | S n' => start :: count_from (start + 1) n'
  end.

Definition upto (n : nat) : list Z := count_from 0 n.

(** Hours after [% 12], with every minute and second. *)
Definition all_adjusted_times (P : Z -> Z -> Z -> bool) : bool :=
  forallb (fun a => forallb (fun m => forallb (fun s => P a m s) (upto 60)) (upto 60))
          (upto 12).

(** ** Evaluating the float operations with the kernel's primitives *)

Definition cvt (z : Z) : float := of_uint63 (Uint63.of_Z z).

Definition prim_hour_angle (adjusted_hours minutes seconds : Z) : float :=
  (cvt (adjusted_hours * 30) + cvt minutes * 0.5 + cvt seconds * (0.5 / cvt 60))%float.

Definition prim_minute_angle (minutes seconds : Z) : float :=
  (cvt (minutes * 6) + cvt seconds * 0.1)%float.

Definition prim_smallest (hour_angle minute_angle : float) : float :=
  let diff := abs (hour_angle - minute_angle) in
  let rest := (cvt 360 - diff)%float in
  if (rest <? diff)%float then rest else diff.

Definition prim_final (adjusted_hours minutes seconds : Z) : float :=
  prim_smallest (prim_hour_angle adjusted_hours minutes seconds)
                (prim_minute_angle minutes seconds).

(** Rounding [n / 2^k] to the nearest integer, ties to even, by shifting. *)
Definition round_half_even_pow2 (n k : Z) : Z :=
  let q := Z.shiftr n k in
  match 2 * Z.land n (Z.ones k) ?= Z.shiftl 1 k with
  | Lt => q
  | Gt => q + 1
  | Eq => if Z.even q then q else q + 1
  end.

(** The exact smaller arc in units of 1/120 of a degree: the hour hand is at
    [3600*a + 60*m + s], the minute hand at [720*m + 12*s]. *)
Definition arc120 (a m s : Z) : Z :=
  let t := Z.abs (3600 * a - 660 * m - 11 * s) in Z.min t (43200 - t).

(** The check made on every adjusted time: the float the code rounds is
    finite and not negative, and it rounds to the same multiple of 1/10000 as
    the exact arc. *)
Definition angle_check (a m s : Z) : bool :=
  let k := Float64.round_half_even (250 * arc120 a m s) 3 in
  match Prim2SF (prim_final a m s) with
  | S754_zero false => k =? 0
  | S754_finite false mm e =>
      round_half_even_pow2 (Z.pos mm * 10 ^ 4 * 2 ^ Z.max e 0) (Z.max (- e) 0) =? k
  | _ => false
  end.

(** The check made on every arc [n/120] up to 180 degrees: the float nearest
    to it, once rounded to 4 decimal places, is in [0, 180]. *)
Definition decimal_check (n : Z) : bool :=
  match Float64.round_half_even (250 * n) 3 with
  | Z.pos p =>
      let r := Float64.of_decimal false p 4 in
      (0 <=? r)%float && (r <=? 180)%float
  | _ => true
  end.

(** ** Sample fixture files *)

Definition record (hours minutes seconds : Z) (expected_angle : float) : pyval :=
  PDict [("hours", PInt hours); ("minutes", PInt minutes); ("seconds", PInt seconds);
         ("expected_angle", PFloat expected_angle)].

(** A world with one file, [name], whose JSON text parses to [content]. *)
Definition one_file (name : string) (content : result pyval) : world :=
  {| path_exists := fun p => String.eqb p name;
     load_json := fun p => if String.eqb p name then content
                           else Raise (OtherError "FileNotFoundError") |}.

(** One record that passes, one that fails, one that is out of range. *)
Definition sample_cases : list pyval :=
  [record 3 0 0 90; record 6 0 0 90; record 24 0 0 0].

(** The world with one file, [name], that exists and whose bytes are not
    valid UTF-8 (the single byte 0xFF, say): [f.read()] inside [json.load]
    raises [UnicodeDecodeError] before any JSON is parsed. *)
Definition undecodable_file (name : string) : world :=
  one_file name (Raise (OtherError "UnicodeDecodeError")).

(** A record without the required field [hours]. *)
Definition missing_hours_cases : list pyval :=
  [PDict [("minutes", PInt 0); ("expected_angle", PFloat 0)]; record 3 0 0 90].

(** ** From the exact arc to the float returned, and back *)

(** The float returned for an exact arc of [n/120] degrees. *)
Definition result_of_arc (n : Z) : float :=
  Spec.nearest_float (Float64.round_half_even (250 * n) 3).

(** The multiple of 1/120 nearest to the exact value [m * 2^e] of a float
    below 1 in magnitude of exponent ([e < 0]). *)
Definition arc_of_result (r : float) : Z :=
  match Prim2SF r with
  | S754_zero _ => 0
  | S754_finite _ m e => round_half_even_pow2 (Z.pos m * 120) (- e)
  | _ => -1
  end.

(** The check made on every arc: the float returned for it is zero or
    [m * 2^e] with [e < 0], it gives the arc back, and it is within 0.000051
    of the arc: [|m / 2^-e - n / 120| <= 51 / 1000000]. *)
Definition arc_check (n : Z) : bool :=
  match Prim2SF (result_of_arc n) with
  | S754_zero _ => n =? 0
  | S754_finite false m e =>
      (e <? 0)
      && (round_half_even_pow2 (Z.pos m * 120) (- e) =? n)
      && (Z.abs (Z.pos m * 120 - n * Z.shiftl 1 (- e)) * 1000000
          <=? 51 * (Z.shiftl 1 (- e) * 120))
  | _ => false
  end.

(** ** The same number as an [int], a [bool] or a [float] *)

(** [v] is the integer [z] written as an [int], as a [bool] (0 or 1), or as
    the float of the same value ([3], [True], [3.0]). *)
Definition same_number (v : pyval) (z : Z) : Prop :=
  as_num v = Some (NInt z) \/ v = PFloat (cvt z).

Definition rep (n : num) (z : Z) : Prop := n = NInt z \/ n = NFloat (cvt z).

(** The check made on every integer up to 59 written as a float: the range
    tests, [% 12], [* 30] and [* 6] give what they give on the [int]. *)
Definition float_check (z : Z) : bool :=
  Float64.int_le 0 (cvt z)
  && Bool.eqb (Float64.le_int (cvt z) 23) (z <=? 23)
  && Float64.le_int (cvt z) 59
  && PrimFloat.Leibniz.eqb (Float64.py_mod (cvt z) (cvt 12)) (cvt (z mod 12))
  && PrimFloat.Leibniz.eqb (cvt z * cvt 30) (cvt (z * 30))
  && PrimFloat.Leibniz.eqb (cvt z * cvt 6) (cvt (z * 6)).

(** A number that has passed a range check with upper bound [hi]: an
    [int] is known to be in range, a float is only known to be a float. *)
Definition in_range (n : num) (hi : Z) : Prop :=
  match n with
  | NInt z => 0 <= z <= hi
  | NFloat _ => True
  end.

(** ** Reading a trace *)

Definition is_log (e : event) : bool :=
  match e with Log _ _ => true | Print _ => false end.

Definition is_print (e : event) : bool :=
  match e with Print _ => true | Log _ _ => false end.

Definition count_logs (out : list event) : nat := List.length (filter is_log out).

Definition is_dict (v : pyval) : bool :=
  match v with PDict _ => true | _ => false end.

(** * Proofs *)

(** ** Enumerating small ranges *)

Lemma count_from_In (n : nat) (start z : Z) :
  start <= z < start + Z.of_nat n -> In z (count_from start n).
Proof.
  revert start. induction n as [| n IH]; intros start Hz.
  - lia.
  - cbn [count_from]. destruct (Z.eq_dec start z) as [-> | Hne].
    + now left.
    + right. apply IH. lia.
Qed.

Lemma upto_In (n : nat) (z : Z) : 0 <= z < Z.of_nat n -> In z (upto n).
Proof. intros Hz. apply count_from_In. lia. Qed.

Lemma upto_forallb (P : Z -> bool) (n : nat) :
  forallb P (upto n) = true -> forall z, 0 <= z < Z.of_nat n -> P z = true.
Proof.
  intros H z Hz. rewrite forallb_forall in H. apply H, upto_In, Hz.
Qed.

Lemma all_adjusted_times_forall (P : Z -> Z -> Z -> bool) :
  all_adjusted_times P = true ->
  forall a m s, 0 <= a < 12 -> 0 <= m <= 59 -> 0 <= s <= 59 -> P a m s = true.
Proof.
  unfold all_adjusted_times. intros H a m s Ha Hm Hs.
  apply upto_forallb with (z := a) in H; [| lia].
  apply upto_forallb with (z := m) in H; [| lia].
  apply upto_forallb with (z := s) in H; [| lia].
  exact H.
Qed.

(** ** The conversions of small ints are the kernel's *)

Lemma of_int_small (z : Z) : 0 <= z <= 360 -> Float64.of_int z = Ok (cvt z).
Proof.
  intros Hz.
  assert (H : forallb (fun z => match Float64.of_int z with
                                | Ok f => PrimFloat.Leibniz.eqb f (cvt z)
                                | Raise _ => false
                                end) (upto 361) = true) by (vm_compute; reflexivity).
  apply upto_forallb with (z := z) in H; [| lia].
  destruct (Float64.of_int z) as [f | e]; [| discriminate].
  apply FloatAxioms.Leibniz.eqb_spec in H. now subst.
Qed.

Section SmallInts.
Variables (z : Z) (f g : float).
Hypothesis Hz : 0 <= z <= 360.

Lemma mul_int_float : num_mul (NInt z) (NFloat f) = Ok (NFloat (cvt z * f)).
Proof. unfold num_mul, to_float. now rewrite of_int_small. Qed.

Lemma add_int_float : num_add (NInt z) (NFloat f) = Ok (NFloat (cvt z + f)).
Proof. unfold num_add, to_float. now rewrite of_int_small. Qed.

Lemma sub_int_float : num_sub (NInt z) (NFloat f) = Ok (NFloat (cvt z - f)).
Proof. unfold num_sub, to_float. now rewrite of_int_small. Qed.

Lemma sub_float_float : num_sub (NFloat f) (NFloat g) = Ok (NFloat (f - g)).
Proof. reflexivity. Qed.

Lemma div_float_int : z <> 0 -> num_div (NFloat f) (NInt z) = Ok (NFloat (f / cvt z)).
Proof.
  intros Hnz. unfold num_div, num_is_zero, to_float.
  apply Z.eqb_neq in Hnz. rewrite Hnz. now rewrite of_int_small.
Qed.
End SmallInts.

Lemma between_int (lo hi z : Z) :
  between lo (PInt z) hi = Ok ((lo <=? z) && (z <=? hi)).
Proof. unfold between. cbn. now destruct (lo <=? z). Qed.

(** The two hand positions and the arc between them, on the kernel's floats. *)
Lemma hour_angle_valid (a m s : Z) :
  0 <= a < 12 -> 0 <= m <= 59 -> 0 <= s <= 59 ->
  hour_angle_of (NInt a) (NInt m) (NInt s) = Ok (NFloat (prim_hour_angle a m s)).
Proof.
  intros Ha Hm Hs. unfold hour_angle_of, prim_hour_angle.
  change (num_mul (NInt a) (NInt 30)) with (Ok (A := num) (NInt (a * 30))).
  cbn [bind].
  rewrite mul_int_float by lia. cbn [bind].
  rewrite add_int_float by lia. cbn [bind].
  rewrite div_float_int by lia. cbn [bind].
  rewrite mul_int_float by lia. reflexivity.
Qed.

Lemma minute_angle_valid (m s : Z) :
  0 <= m <= 59 -> 0 <= s <= 59 ->
  minute_angle_of (NInt m) (NInt s) = Ok (NFloat (prim_minute_angle m s)).
Proof.
  intros Hm Hs. unfold minute_angle_of, prim_minute_angle.
  change (num_mul (NInt m) (NInt 6)) with (Ok (A := num) (NInt (m * 6))).
  cbn [bind].
  rewrite mul_int_float by lia. cbn [bind].
  now rewrite add_int_float by lia.
Qed.

Lemma smallest_angle_floats (x y : float) :
  smallest_angle (NFloat x) (NFloat y) = Ok (NFloat (Float64.round (prim_smallest x y) 4)).
Proof.
  unfold smallest_angle, prim_smallest.
  rewrite sub_float_float. cbn [bind num_abs].
  rewrite sub_int_float by lia. cbn [bind]. unfold py_min, num_lt. cbv zeta.
  now destruct (_ <? _)%float.
Qed.

(** After the three checks of lines 35-40 have passed. *)
Lemma calculate_unfold (hours minutes seconds : Z) :
  valid_time hours minutes seconds ->
  calculate_clock_angle (PInt hours) (PInt minutes) (PInt seconds)
  = (hour_angle <- hour_angle_of (NInt (hours mod 12)) (NInt minutes) (NInt seconds) ;;
     minute_angle <- minute_angle_of (NInt minutes) (NInt seconds) ;;
     smallest_angle hour_angle minute_angle)%py.
Proof.
  intros (Hh & Hm & Hs). unfold calculate_clock_angle.
  rewrite !between_int.
  replace (0 <=? hours) with true by (symmetry; apply Z.leb_le; lia).
  replace (hours <=? 23) with true by (symmetry; apply Z.leb_le; lia).
  replace (0 <=? minutes) with true by (symmetry; apply Z.leb_le; lia).
  replace (minutes <=? 59) with true by (symmetry; apply Z.leb_le; lia).
  replace (0 <=? seconds) with true by (symmetry; apply Z.leb_le; lia).
  replace (seconds <=? 59) with true by (symmetry; apply Z.leb_le; lia).
  reflexivity.
Qed.

(** On valid ints the function is the float formula of lines 42-52, on the
    kernel's floats. *)
Lemma calculate_valid (hours minutes seconds : Z) :
  valid_time hours minutes seconds ->
  calculate_clock_angle (PInt hours) (PInt minutes) (PInt seconds)
  = Ok (NFloat (Float64.round (prim_final (hours mod 12) minutes seconds) 4)).
Proof.
  intros Hv. rewrite calculate_unfold by assumption.
  destruct Hv as (Hh & Hm & Hs).
  assert (Ha : 0 <= hours mod 12 < 12) by (apply Z.mod_pos_bound; lia).
  rewrite hour_angle_valid, minute_angle_valid by assumption. cbn [bind].
  apply smallest_angle_floats.
Qed.

(** ** Rounding by shifts *)

Lemma round_half_even_pow2_ok (n k : Z) :
  0 <= k -> round_half_even_pow2 n k = Float64.round_half_even n (2 ^ k).
Proof.
  intros Hk. unfold round_half_even_pow2, Float64.round_half_even.
  rewrite Z.shiftr_div_pow2, Z.land_ones, Z.shiftl_1_l by assumption.
  reflexivity.
Qed.

(** ** The exact angle in closed form *)

Lemma round_half_even_scale (c x y : Z) :
  0 < c -> 0 < y ->
  Float64.round_half_even (c * x) (c * y) = Float64.round_half_even x y.
Proof.
  intros Hc Hy. unfold Float64.round_half_even.
  rewrite Z.div_mul_cancel_l, Z.mul_mod_distr_l by lia.
  replace (2 * (c * (x mod y))) with (c * (2 * (x mod y))) by lia.
  destruct (Z.compare_spec (2 * (x mod y)) y),
           (Z.compare_spec (c * (2 * (x mod y))) (c * y));
    try reflexivity; nia.
Qed.

Lemma spec_diff_closed (h m s : Z) :
  Spec.diff h m s = (Z.abs (20 * (3600 * (h mod 12) - 660 * m - 11 * s)) # 2400)%Q.
Proof.
  unfold Spec.diff, Spec.hour_position, Spec.minute_position.
  unfold Qminus, Qplus, Qmult, Qdiv, Qinv, Qopp, Qabs, inject_Z. cbn [Qnum Qden].
  change (Qden ((1 # 2) * (1 # 60))) with 120%positive.
  change (Qnum ((1 # 2) * (1 # 60))) with 1.
  f_equal. f_equal. lia.
Qed.

Lemma spec_round4_arc (h m s : Z) :
  Spec.round4 (Spec.angle h m s)
  = Float64.round_half_even (250 * arc120 (h mod 12) m s) 3.
Proof.
  unfold Spec.angle. rewrite spec_diff_closed. unfold arc120.
  set (t := 3600 * (h mod 12) - 660 * m - 11 * s).
  replace (Z.abs (20 * t)) with (20 * Z.abs t) by lia.
  unfold Qmin, GenericMinMax.gmin, Qcompare, Qminus, Qplus, Qopp, Spec.round4.
  cbn [Qnum Qden].
  set (u := Z.abs t).
  change (Z.pos (1 * 2400)) with 2400. change (10 ^ 4) with 10000.
  destruct (Z.compare_spec (20 * u * 2400) ((360 * 2400 + - (20 * u) * 1) * 2400))
    as [E | E | E];
    cbn [Qnum Qden]; change (Z.pos (1 * 2400)) with (800 * 3);
    change (Z.pos 2400) with (800 * 3);
    rewrite <- (round_half_even_scale 800 (250 * Z.min u (43200 - u)) 3) by lia;
    f_equal; lia.
Qed.

Lemma arc120_bounds (a m s : Z) :
  0 <= a < 12 -> 0 <= m <= 59 -> 0 <= s <= 59 -> 0 <= arc120 a m s < 21601.
Proof. unfold arc120. lia. Qed.

(** ** Every adjusted time and every arc, checked *)

Lemma angle_table : all_adjusted_times angle_check = true.
Proof. vm_compute. reflexivity. Qed.

Lemma decimal_table : forallb decimal_check (upto (Z.to_nat 21601)) = true.
Proof. vm_compute. reflexivity. Qed.

Lemma angle_check_sound (a m s : Z) :
  angle_check a m s = true ->
  decimal_check (arc120 a m s) = true ->
  let r := Float64.round (prim_final a m s) 4 in
  r = Spec.nearest_float (Float64.round_half_even (250 * arc120 a m s) 3)
  /\ (0 <=? r)%float = true /\ (r <=? 180)%float = true.
Proof.
  unfold angle_check, decimal_check, Float64.round. cbv zeta.
  destruct (Prim2SF (prim_final a m s)) as [[|] | | | [|] mm e] eqn:E; try discriminate.
  - intros H _. apply Z.eqb_eq in H. rewrite H.
    rewrite <- (SF2Prim_Prim2SF (prim_final a m s)), E.
    repeat split; reflexivity.
  - rewrite <- round_half_even_pow2_ok by lia.
    intros Hk Hr. apply Z.eqb_eq in Hk. rewrite Hk.
    destruct (Float64.round_half_even _ _) as [| p | p]; cbn [Spec.nearest_float].
    + repeat split; reflexivity.
    + apply andb_true_iff in Hr. destruct Hr as [H0 H180]. repeat split; assumption.
    + repeat split; reflexivity.
Qed.

(** The facts about a valid time that the two tables give. *)
Lemma calculate_facts (hours minutes seconds : Z) :
  valid_time hours minutes seconds ->
  exists r : float,
    calculate_clock_angle (PInt hours) (PInt minutes) (PInt seconds) = Ok (NFloat r)
    /\ r = Float64.round (prim_final (hours mod 12) minutes seconds) 4
    /\ r = Spec.nearest_float (Spec.round4 (Spec.angle hours minutes seconds))
    /\ (0 <=? r)%float = true /\ (r <=? 180)%float = true.
Proof.
  intros Hv. pose proof (calculate_valid _ _ _ Hv) as Hc.
  destruct Hv as (Hh & Hm & Hs).
  assert (Ha : 0 <= hours mod 12 < 12) by (apply Z.mod_pos_bound; lia).
  pose proof (all_adjusted_times_forall _ angle_table _ _ _ Ha Hm Hs) as Ht.
  assert (Hd : decimal_check (arc120 (hours mod 12) minutes seconds) = true).
  { apply (upto_forallb _ _ decimal_table).
    rewrite Z2Nat.id by lia. now apply arc120_bounds. }
  destruct (angle_check_sound _ _ _ Ht Hd) as (H1 & H2 & H3).
  rewrite <- spec_round4_arc in H1.
  eexists. split; [exact Hc |]. repeat split; assumption.
Qed.

(** ** The arc does not depend on which hand is ahead *)

Lemma SFabs_binary_round_aux (s s' : bool) (m e : Z) (l : location) :
  SFabs (binary_round_aux prec emax s m e l) = SFabs (binary_round_aux prec emax s' m e l).
Proof.
  unfold binary_round_aux.
  destruct (shr_fexp prec emax m e l) as [mrs' e'].
  destruct (shr_fexp prec emax _ e' loc_Exact) as [mrs'' e''].
  destruct (shr_m mrs'') as [| p | p]; try reflexivity.
  now destruct (e'' <=? emax - prec).
Qed.

Lemma SFabs_binary_normalize_opp (z e : Z) :
  SFabs (binary_normalize prec emax (- z) e false)
  = SFabs (binary_normalize prec emax z e false).
Proof.
  destruct z as [| p | p]; cbn [Z.opp binary_normalize]; try reflexivity;
    unfold binary_round; destruct (shl_align _ _ _) as [mz ez];
    apply SFabs_binary_round_aux.
Qed.

Lemma SFabs_sub_comm (a b : spec_float) :
  SFabs (SF64sub a b) = SFabs (SF64sub b a).
Proof.
  destruct a as [sa | sa | | sa ma ea], b as [sb | sb | | sb mb eb];
    try (destruct sa); try (destruct sb); try reflexivity;
    unfold SF64sub, SFsub; rewrite (Z.min_comm eb ea);
    rewrite <- SFabs_binary_normalize_opp; do 2 f_equal; cbn [cond_Zopp]; lia.
Qed.

Lemma abs_sub_comm (x y : float) : abs (x - y) = abs (y - x).
Proof.
  apply Prim2SF_inj. rewrite !abs_spec, !sub_spec. apply SFabs_sub_comm.
Qed.

Lemma smallest_angle_comm (x y : float) :
  smallest_angle (NFloat x) (NFloat y) = smallest_angle (NFloat y) (NFloat x).
Proof.
  rewrite !smallest_angle_floats. unfold prim_smallest. now rewrite abs_sub_comm.
Qed.

(** * Properties of [calculate_clock_angle] *)

(** C1: on every valid input (0 <= hours <= 23, 0 <= minutes <= 59,
    0 <= seconds <= 59) the function returns
    [round(min(diff, 360 - diff), 4)] for
    [diff = |(30*(hours mod 12) + 0.5*minutes + (0.5/60)*seconds)
           - (6*minutes + 0.1*seconds)|].
    Read in Python's float arithmetic this is the first equation; read
    over the rationals it is the second: the float returned is the one
    nearest to the exact angle rounded to 4 decimal places, ties to even. *)
Theorem calculate_clock_angle_formula (hours minutes seconds : Z) :
  valid_time hours minutes seconds ->
  calculate_clock_angle (PInt hours) (PInt minutes) (PInt seconds)
  = Ok (NFloat (Float64.round (prim_final (hours mod 12) minutes seconds) 4))
  /\ calculate_clock_angle (PInt hours) (PInt minutes) (PInt seconds)
     = Ok (NFloat (Spec.nearest_float (Spec.round4 (Spec.angle hours minutes seconds)))).
Proof.
  intros Hv. destruct (calculate_facts _ _ _ Hv) as (r & Hc & Hf & Hq & _).
  split; rewrite Hc; congruence.
Qed.

Lemma calculate_clock_angle_formula_witness :
  calculate_clock_angle (PInt 13) (PInt 17) (PInt 43)
  = Ok (NFloat (Spec.nearest_float (Spec.round4 (Spec.angle 13 17 43)))).
Proof.
  apply (calculate_clock_angle_formula 13 17 43). unfold valid_time. lia.
Defined.

(** C2: on every valid input the value returned lies in the closed interval
    [0, 180]. *)
Theorem calculate_clock_angle_range (hours minutes seconds : Z) :
  valid_time hours minutes seconds ->
  exists r : float,
    calculate_clock_angle (PInt hours) (PInt minutes) (PInt seconds) = Ok (NFloat r)
    /\ (0 <=? r)%float = true /\ (r <=? 180)%float = true.
Proof.
  intros Hv. destruct (calculate_facts _ _ _ Hv) as (r & Hc & _ & _ & H0 & H180).
  exists r. repeat split; assumption.
Qed.

Lemma calculate_clock_angle_range_witness :
  exists r : float,
    calculate_clock_angle (PInt 23) (PInt 59) (PInt 59) = Ok (NFloat r)
    /\ (0 <=? r)%float = true /\ (r <=? 180)%float = true.
Proof.
  apply (calculate_clock_angle_range 23 59 59). unfold valid_time. lia.
Defined.

(** C3: [calculate_clock_angle(0, 0, 0) == 0.0],
    [calculate_clock_angle(12, 0, 0) == 0.0],
    [calculate_clock_angle(3, 0, 0) == 90.0],
    [calculate_clock_angle(6, 0, 0) == 180.0] and
    [calculate_clock_angle(9, 0, 0) == 90.0]. *)
Theorem calculate_clock_angle_known_cases :
  calculate_clock_angle (PInt 0) (PInt 0) (PInt 0) = Ok (NFloat 0)
  /\ calculate_clock_angle (PInt 12) (PInt 0) (PInt 0) = Ok (NFloat 0)
  /\ calculate_clock_angle (PInt 3) (PInt 0) (PInt 0) = Ok (NFloat 90)
  /\ calculate_clock_angle (PInt 6) (PInt 0) (PInt 0) = Ok (NFloat 180)
  /\ calculate_clock_angle (PInt 9) (PInt 0) (PInt 0) = Ok (NFloat 90).
Proof. repeat split; vm_compute; reflexivity. Qed.

(** C9: the result depends only on the absolute difference of the two hand
    positions: the rounded smaller arc is the same when the hour-hand
    position and the minute-hand position are exchanged, for any two floats
    and so for the two positions computed from a valid time. *)
Theorem calculate_clock_angle_symmetric (hours minutes seconds : Z) :
  valid_time hours minutes seconds ->
  (forall x y : float,
      smallest_angle (NFloat x) (NFloat y) = smallest_angle (NFloat y) (NFloat x))
  /\ exists hour_angle minute_angle : float,
      hour_angle_of (NInt (hours mod 12)) (NInt minutes) (NInt seconds)
      = Ok (NFloat hour_angle)
      /\ minute_angle_of (NInt minutes) (NInt seconds) = Ok (NFloat minute_angle)
      /\ calculate_clock_angle (PInt hours) (PInt minutes) (PInt seconds)
         = smallest_angle (NFloat hour_angle) (NFloat minute_angle)
      /\ calculate_clock_angle (PInt hours) (PInt minutes) (PInt seconds)
         = smallest_angle (NFloat minute_angle) (NFloat hour_angle).
Proof.
  intros Hv. split; [exact smallest_angle_comm |].
  pose proof (calculate_unfold _ _ _ Hv) as Hc.
  destruct Hv as (Hh & Hm & Hs).
  assert (Ha : 0 <= hours mod 12 < 12) by (apply Z.mod_pos_bound; lia).
  exists (prim_hour_angle (hours mod 12) minutes seconds), (prim_minute_angle minutes seconds).
  rewrite Hc, hour_angle_valid, minute_angle_valid by assumption. cbn [bind].
  repeat split; try reflexivity. apply smallest_angle_comm.
Qed.

Lemma calculate_clock_angle_symmetric_witness :
  exists hour_angle minute_angle : float,
    hour_angle_of (NInt (9 mod 12)) (NInt 0) (NInt 0) = Ok (NFloat hour_angle)
    /\ minute_angle_of (NInt 0) (NInt 0) = Ok (NFloat minute_angle)
    /\ calculate_clock_angle (PInt 9) (PInt 0) (PInt 0)
       = smallest_angle (NFloat hour_angle) (NFloat minute_angle)
    /\ calculate_clock_angle (PInt 9) (PInt 0) (PInt 0)
       = smallest_angle (NFloat minute_angle) (NFloat hour_angle).
Proof.
  apply (calculate_clock_angle_symmetric 9 0 0). unfold valid_time. lia.
Defined.

(** C10: on every valid input with 12 <= hours <= 23,
    [calculate_clock_angle(hours, minutes, seconds)] equals
    [calculate_clock_angle(hours - 12, minutes, seconds)]. *)
Theorem calculate_clock_angle_afternoon (hours minutes seconds : Z) :
  valid_time hours minutes seconds -> 12 <= hours <= 23 ->
  calculate_clock_angle (PInt hours) (PInt minutes) (PInt seconds)
  = calculate_clock_angle (PInt (hours - 12)) (PInt minutes) (PInt seconds).
Proof.
  intros Hv Hpm.
  assert (Hv' : valid_time (hours - 12) minutes seconds) by (unfold valid_time in *; lia).
  rewrite !calculate_unfold by assumption.
  replace ((hours - 12) mod 12) with (hours mod 12); [reflexivity |].
  replace hours with (hours - 12 + 1 * 12) at 1 by lia.
  apply Z_mod_plus_full.
Qed.

Lemma calculate_clock_angle_afternoon_witness :
  calculate_clock_angle (PInt 21) (PInt 15) (PInt 30)
  = calculate_clock_angle (PInt (21 - 12)) (PInt 15) (PInt 30).
Proof.
  apply (calculate_clock_angle_afternoon 21 15 30); unfold valid_time; lia.
Defined.

(** ** Validation *)

Lemma calculate_checks (hours minutes seconds : Z) :
  calculate_clock_angle (PInt hours) (PInt minutes) (PInt seconds)
  = if negb ((0 <=? hours) && (hours <=? 23)) then
      Raise (ValueError "Hours must be between 0 and 23, got " (PInt hours))
    else if negb ((0 <=? minutes) && (minutes <=? 59)) then
      Raise (ValueError "Minutes must be between 0 and 59, got " (PInt minutes))
    else if negb ((0 <=? seconds) && (seconds <=? 59)) then
      Raise (ValueError "Seconds must be between 0 and 59, got " (PInt seconds))
    else
      Ok (NFloat (Float64.round (prim_final (hours mod 12) minutes seconds) 4)).
Proof.
  destruct ((0 <=? hours) && (hours <=? 23)) eqn:Hh;
    [destruct ((0 <=? minutes) && (minutes <=? 59)) eqn:Hm;
     [destruct ((0 <=? seconds) && (seconds <=? 59)) eqn:Hs |] |];
    cbn [negb].
  - apply calculate_valid. unfold valid_time. lia.
  - unfold calculate_clock_angle. rewrite !between_int, Hh, Hm, Hs. reflexivity.
  - unfold calculate_clock_angle. rewrite !between_int, Hh, Hm. reflexivity.
  - unfold calculate_clock_angle. rewrite !between_int, Hh. reflexivity.
Qed.

(** C4: [calculate_clock_angle] fails if and only if some input is out of
    range (hours not in 0..23, minutes not in 0..59, seconds not in 0..59);
    it then raises a [ValueError] whose message names the first offending
    field, in the order hours, minutes, seconds, and carries its value, and
    no angle is computed.  In particular [calculate_clock_angle(24, 0, 0)],
    [calculate_clock_angle(0, 60, 0)] and [calculate_clock_angle(0, 0, 60)]
    fail this way. *)
Theorem calculate_clock_angle_rejects (hours minutes seconds : Z) :
  (~ valid_time hours minutes seconds <->
   exists e, calculate_clock_angle (PInt hours) (PInt minutes) (PInt seconds) = Raise e)
  /\ (forall e,
       calculate_clock_angle (PInt hours) (PInt minutes) (PInt seconds) = Raise e ->
       (~ 0 <= hours <= 23
        /\ e = ValueError "Hours must be between 0 and 23, got " (PInt hours))
       \/ (0 <= hours <= 23 /\ ~ 0 <= minutes <= 59
           /\ e = ValueError "Minutes must be between 0 and 59, got " (PInt minutes))
       \/ (0 <= hours <= 23 /\ 0 <= minutes <= 59 /\ ~ 0 <= seconds <= 59
           /\ e = ValueError "Seconds must be between 0 and 59, got " (PInt seconds)))
  /\ option_map exn_message
       (match calculate_clock_angle (PInt 24) (PInt 0) (PInt 0) with
        | Raise e => Some e | Ok _ => None end)
     = Some (Some "Hours must be between 0 and 23, got 24")
  /\ option_map exn_message
       (match calculate_clock_angle (PInt 0) (PInt 60) (PInt 0) with
        | Raise e => Some e | Ok _ => None end)
     = Some (Some "Minutes must be between 0 and 59, got 60")
  /\ option_map exn_message
       (match calculate_clock_angle (PInt 0) (PInt 0) (PInt 60) with
        | Raise e => Some e | Ok _ => None end)
     = Some (Some "Seconds must be between 0 and 59, got 60").
Proof.
  rewrite calculate_checks. unfold valid_time.
  destruct ((0 <=? hours) && (hours <=? 23)) eqn:Hh;
    [destruct ((0 <=? minutes) && (minutes <=? 59)) eqn:Hm;
     [destruct ((0 <=? seconds) && (seconds <=? 59)) eqn:Hs |] |];
    cbn [negb];
    (split; [split | split; [| repeat split; reflexivity]]).
  - lia.
  - intros [e He]. discriminate.
  - intros e He. discriminate.
  - intros _. eexists. reflexivity.
  - lia.
  - intros e He. injection He as <-. right. right. repeat split; try lia.
  - intros _. eexists. reflexivity.
  - lia.
  - intros e He. injection He as <-. right. left. repeat split; try lia.
  - intros _. eexists. reflexivity.
  - lia.
  - intros e He. injection He as <-. left. split; [lia | reflexivity].
Qed.

Lemma calculate_clock_angle_rejects_witness :
  exists e, calculate_clock_angle (PInt 24) (PInt 0) (PInt 0) = Raise e.
Proof.
  apply (proj1 (calculate_clock_angle_rejects 24 0 0)). unfold valid_time. lia.
Defined.

(** * Properties of [run_tests_from_file] *)

(** C7: for every filepath that does not reference an existing file the
    runner emits one error-level log message naming the path and returns:
    no header, no rows, no summary, and no exception. *)
Theorem run_tests_missing_file (w : world) (filepath : string) :
  path_exists w filepath = false ->
  run_tests_from_file w filepath
  = ([Log ERROR ("Файл не знайдено: " ++ filepath)], Ok tt).
Proof.
  intros He. unfold run_tests_from_file. now rewrite He.
Qed.

Lemma run_tests_missing_file_witness :
  run_tests_from_file (one_file "clock_test_data.json" (Ok (PList sample_cases))) "nowhere.json"
  = ([Log ERROR ("Файл не знайдено: " ++ "nowhere.json")], Ok tt).
Proof.
  apply (run_tests_missing_file _ "nowhere.json"). reflexivity.
Defined.

(** X25: for every existing file on which [json.load] raises
    [JSONDecodeError] (its text is not JSON) the runner emits one
    error-level log message naming the file and returns before any case is
    processed: no header, no rows, no summary. *)
Theorem run_tests_malformed_file (w : world) (filepath : string) :
  path_exists w filepath = true ->
  load_json w filepath = Raise JSONDecodeError ->
  run_tests_from_file w filepath
  = ([Log ERROR ("Помилка читання JSON: " ++ filepath)], Ok tt).
Proof.
  intros He Hl. unfold run_tests_from_file. now rewrite He, Hl.
Qed.

Lemma run_tests_malformed_file_witness :
  run_tests_from_file (one_file "broken.json" (Raise JSONDecodeError)) "broken.json"
  = ([Log ERROR ("Помилка читання JSON: " ++ "broken.json")], Ok tt).
Proof.
  apply (run_tests_malformed_file _ "broken.json"); reflexivity.
Defined.

(** C8, at the input where the code departs from it: an existing file whose
    bytes are not valid UTF-8 fails to parse, but what [json.load] raises is
    [UnicodeDecodeError], the handler of line 67 names [JSONDecodeError]
    only, and the exception leaves [run_tests_from_file] with nothing logged
    and nothing printed. *)
Theorem run_tests_undecodable_file_raises :
  run_tests_from_file (undecodable_file "clock_test_data.json") "clock_test_data.json"
  = ([], Raise (OtherError "UnicodeDecodeError")).
Proof. vm_compute. reflexivity. Qed.

(** ** The loop *)

Lemma io_bind_lift_ok {A B} (a : A) (k : A -> io B) : io_bind (lift (Ok a)) k = k a.
Proof. unfold io_bind, lift. now destruct (k a). Qed.

Lemma run_case_judge (case : pyval) (passed : Z) :
  crashes case = false ->
  run_case case passed
  = (report_line case, Ok (if is_pass case then passed + 1 else passed)).
Proof.
  unfold crashes, is_pass, report_line, judge, run_case, fields.
  destruct case as [| b | z | f | str | items | kvs]; try discriminate.
  cbn [dict_get bind]. rewrite !io_bind_lift_ok.
  set (h := match find _ kvs with Some kv => snd kv | None => PNone end).
  set (m := match find (fun kv => String.eqb (fst kv) "minutes") kvs with
            | Some kv => snd kv | None => PNone end).
  set (s := match find (fun kv => String.eqb (fst kv) "seconds") kvs with
            | Some kv => snd kv | None => PInt 0 end).
  set (expected := match find (fun kv => String.eqb (fst kv) "expected_angle") kvs with
                   | Some kv => snd kv | None => PNone end).
  unfold try_body.
  destruct (calculate_clock_angle h m s) as [actual | e].
  - rewrite io_bind_lift_ok.
    destruct (is_correct_of actual expected) as [[|] | e]; try discriminate;
      intros _; reflexivity.
  - destruct e; try discriminate. intros _. reflexivity.
Qed.

Lemma run_cases_report (cases : list pyval) (passed : Z) :
  existsb crashes cases = false ->
  run_cases cases passed
  = (flat_map report_line cases, Ok (passed + count_pass cases)).
Proof.
  revert passed. unfold count_pass.
  induction cases as [| case rest IH]; intros passed Hc.
  - cbn. now rewrite Z.add_0_r.
  - cbn [existsb] in Hc. apply orb_false_iff in Hc. destruct Hc as [Hcase Hrest].
    cbn [run_cases flat_map filter]. rewrite run_case_judge by assumption.
    unfold io_bind. rewrite IH by assumption.
    destruct (is_pass case); cbn [List.length]; do 2 f_equal; lia.
Qed.

(** A record with the four fields, ints for the time and a float for the
    expected angle, never crashes the run, whatever the numbers. *)
Lemma record_never_crashes (hours minutes seconds : Z) (expected_angle : float) :
  crashes (record hours minutes seconds expected_angle) = false.
Proof.
  unfold crashes, judge.
  change (fields (record hours minutes seconds expected_angle))
    with (Ok (A := pyval * pyval * pyval * pyval)
             (PInt hours, PInt minutes, PInt seconds, PFloat expected_angle)).
  cbv beta iota. rewrite calculate_checks.
  destruct (negb _); [reflexivity |].
  destruct (negb _); [reflexivity |].
  destruct (negb _); [reflexivity |].
  unfold is_correct_of. cbn [numeric as_num bind num_sub to_float].
  now destruct (num_lt _ _).
Qed.




(** The sample file: one PASS row, one FAIL row, one error line, and the
    summary 1/3. *)
Example sample_report :
  run_tests_from_file (one_file "clock_test_data.json" (Ok (PList sample_cases)))
                      "clock_test_data.json"
  = ([Print (Text "Time (H:M:S)    | Expected   | Actual     | Status");
      Print (Text "-------------------------------------------------------");
      Print (Row (PInt 3) (PInt 0) (PInt 0) (PFloat 90) (NFloat 90) "PASS");
      Print (Row (PInt 6) (PInt 0) (PInt 0) (PFloat 90) (NFloat 180) "FAIL");
      Print (ErrorLine (PInt 24) (PInt 0) (PInt 0)
               (ValueError "Hours must be between 0 and 23, got " (PInt 24)));
      Print (Text "-------------------------------------------------------");
      Log INFO "Test Run Complete: 1/3 passed."],
     Ok tt).
Proof. vm_compute. reflexivity. Qed.

(** C5, at the input where the code departs from it: a record without
    [hours] makes [case.get('hours')] return [None], [0 <= None] raises
    [TypeError], the handler catches [ValueError] only, and the exception
    leaves [run_tests_from_file] after the header, before the second record
    is looked at. *)
Theorem run_tests_missing_hours_raises :
  run_tests_from_file (one_file "clock_test_data.json" (Ok (PList missing_hours_cases)))
                      "clock_test_data.json"
  = ([Print (Text header); Print (Text separator)], Raise TypeError).
Proof. vm_compute. reflexivity. Qed.

(** * Further properties of [calculate_clock_angle] *)

Lemma between_not_numeric (lo hi : Z) (v : pyval) :
  as_num v = None -> between lo v hi = Raise TypeError.
Proof. intros H. unfold between, numeric. now rewrite H. Qed.

(** X1: the three range checks are made in the order hours, minutes,
    seconds, and the first that fails ends the call: an [int] hours outside
    0..23 raises the [ValueError] about hours whatever minutes and seconds
    are, even when they are not numbers; with hours in range, an [int]
    minutes outside 0..59 raises the one about minutes whatever seconds is. *)
Theorem calculate_clock_angle_first_failure (hours minutes : Z) (m s : pyval) :
  (~ 0 <= hours <= 23 ->
   calculate_clock_angle (PInt hours) m s
   = Raise (ValueError "Hours must be between 0 and 23, got " (PInt hours)))
  /\ (0 <= hours <= 23 -> ~ 0 <= minutes <= 59 ->
      calculate_clock_angle (PInt hours) (PInt minutes) s
      = Raise (ValueError "Minutes must be between 0 and 59, got " (PInt minutes))).
Proof.
  split.
  - intros Hh. unfold calculate_clock_angle. rewrite between_int.
    replace ((0 <=? hours) && (hours <=? 23)) with false; [reflexivity |].
    symmetry. apply andb_false_iff. rewrite !Z.leb_gt. lia.
  - intros Hh Hm. unfold calculate_clock_angle. rewrite !between_int.
    replace ((0 <=? hours) && (hours <=? 23)) with true
      by (symmetry; apply andb_true_iff; rewrite !Z.leb_le; lia).
    replace ((0 <=? minutes) && (minutes <=? 59)) with false; [reflexivity |].
    symmetry. apply andb_false_iff. rewrite !Z.leb_gt. lia.
Qed.

Lemma calculate_clock_angle_first_failure_witness :
  calculate_clock_angle (PInt 24) PNone (PStr "x")
  = Raise (ValueError "Hours must be between 0 and 23, got " (PInt 24))
  /\ calculate_clock_angle (PInt 5) (PInt 60) PNone
     = Raise (ValueError "Minutes must be between 0 and 59, got " (PInt 60)).
Proof.
  split.
  - apply (proj1 (calculate_clock_angle_first_failure 24 0 PNone (PStr "x"))). lia.
  - apply (proj2 (calculate_clock_angle_first_failure 5 60 PNone PNone)); lia.
Defined.

Lemma not_a_number_hours (h m s : pyval) :
  as_num h = None -> calculate_clock_angle h m s = Raise TypeError.
Proof.
  intros Hh. unfold calculate_clock_angle. now rewrite between_not_numeric.
Qed.

Lemma not_a_number_minutes (hours : Z) (m s : pyval) :
  0 <= hours <= 23 -> as_num m = None ->
  calculate_clock_angle (PInt hours) m s = Raise TypeError.
Proof.
  intros Hh Hm. unfold calculate_clock_angle.
  rewrite between_int, (between_not_numeric _ _ m) by assumption.
  replace ((0 <=? hours) && (hours <=? 23)) with true
    by (symmetry; apply andb_true_iff; rewrite !Z.leb_le; lia).
  reflexivity.
Qed.

Lemma not_a_number_seconds (hours minutes : Z) (s : pyval) :
  0 <= hours <= 23 -> 0 <= minutes <= 59 -> as_num s = None ->
  calculate_clock_angle (PInt hours) (PInt minutes) s = Raise TypeError.
Proof.
  intros Hh Hm Hs. unfold calculate_clock_angle.
  rewrite !between_int, (between_not_numeric _ _ s) by assumption.
  replace ((0 <=? hours) && (hours <=? 23)) with true
    by (symmetry; apply andb_true_iff; rewrite !Z.leb_le; lia).
  replace ((0 <=? minutes) && (minutes <=? 59)) with true
    by (symmetry; apply andb_true_iff; rewrite !Z.leb_le; lia).
  reflexivity.
Qed.

(** X2: a value that is not a number (None, a string, a list, a dict) in
    the first field the checks reach raises [TypeError], not [ValueError]:
    in hours always, in minutes when hours is an [int] in range, in seconds
    when hours and minutes are. *)
Theorem calculate_clock_angle_not_a_number (hours minutes : Z) (h m s : pyval) :
  (as_num h = None -> calculate_clock_angle h m s = Raise TypeError)
  /\ (0 <= hours <= 23 -> as_num m = None ->
      calculate_clock_angle (PInt hours) m s = Raise TypeError)
  /\ (0 <= hours <= 23 -> 0 <= minutes <= 59 -> as_num s = None ->
      calculate_clock_angle (PInt hours) (PInt minutes) s = Raise TypeError).
Proof.
  split; [| split].
  - apply not_a_number_hours.
  - apply not_a_number_minutes.
  - apply not_a_number_seconds.
Qed.

Lemma calculate_clock_angle_not_a_number_witness :
  calculate_clock_angle PNone (PInt 0) (PInt 0) = Raise TypeError
  /\ calculate_clock_angle (PInt 3) (PStr "0") (PInt 0) = Raise TypeError
  /\ calculate_clock_angle (PInt 3) (PInt 0) (PList []) = Raise TypeError.
Proof.
  split; [| split].
  - now apply (proj1 (calculate_clock_angle_not_a_number 0 0 PNone (PInt 0) (PInt 0))).
  - apply (proj1 (proj2 (calculate_clock_angle_not_a_number 3 0 PNone (PStr "0") (PInt 0))));
      [lia | reflexivity].
  - apply (proj2 (proj2 (calculate_clock_angle_not_a_number 3 0 PNone PNone (PList []))));
      [lia | lia | reflexivity].
Defined.

(** * Further properties of [run_tests_from_file] *)

(** ** One turn of the loop, whatever the record *)

Lemma of_int_raises (z : Z) (x : pyexn) :
  Float64.of_int z = Raise x -> x = OverflowError.
Proof.
  unfold Float64.of_int. destruct (Float64.of_Z_rounded z); intros H;
    now (discriminate || injection H as <-).
Qed.

Lemma num_sub_raises (a b : num) (x : pyexn) :
  num_sub a b = Raise x -> x = OverflowError.
Proof.
  destruct a as [za | fa], b as [zb | fb]; cbn [num_sub to_float bind];
    try discriminate.
  - destruct (Float64.of_int za) eqn:E; cbn [bind]; [discriminate |].
    intros H. injection H as <-. eapply of_int_raises, E.
  - destruct (Float64.of_int zb) eqn:E; cbn [bind]; [discriminate |].
    intros H. injection H as <-. eapply of_int_raises, E.
Qed.

(** The comparison of line 84 raises [TypeError] or [OverflowError] only. *)
Lemma is_correct_of_raises (actual : num) (expected : pyval) (x : pyexn) :
  is_correct_of actual expected = Raise x -> x = TypeError \/ x = OverflowError.
Proof.
  unfold is_correct_of, numeric.
  destruct (as_num expected) as [e |]; cbn [bind].
  - destruct (num_sub actual e) eqn:E; cbn [bind]; [discriminate |].
    intros H. injection H as <-. right. eapply num_sub_raises, E.
  - intros H. injection H as <-. now left.
Qed.

Lemma run_case_crash (case : pyval) (passed : Z) (e : pyexn) :
  judge case = Crash e -> run_case case passed = ([], Raise e).
Proof.
  unfold judge, run_case, fields.
  destruct case as [| b | z | f | str | items | kvs];
    try (intros H; injection H as <-; reflexivity).
  cbn [dict_get bind]. rewrite !io_bind_lift_ok.
  set (h := match find _ kvs with Some kv => snd kv | None => PNone end).
  set (m := match find (fun kv => String.eqb (fst kv) "minutes") kvs with
            | Some kv => snd kv | None => PNone end).
  set (s := match find (fun kv => String.eqb (fst kv) "seconds") kvs with
            | Some kv => snd kv | None => PInt 0 end).
  set (expected := match find (fun kv => String.eqb (fst kv) "expected_angle") kvs with
                   | Some kv => snd kv | None => PNone end).
  unfold try_body.
  destruct (calculate_clock_angle h m s) as [actual | e'].
  - rewrite io_bind_lift_ok.
    destruct (is_correct_of actual expected) as [[|] | e'] eqn:Hi; try discriminate.
    intros H. injection H as <-.
    destruct (is_correct_of_raises _ _ _ Hi) as [-> | ->]; reflexivity.
  - destruct e'; try discriminate; intros H; injection H as <-; reflexivity.
Qed.

Lemma crashes_judge (case : pyval) :
  crashes case = true -> exists e, judge case = Crash e.
Proof.
  unfold crashes. destruct (judge case); try discriminate. intros _. now eexists.
Qed.

Lemma report_line_one (case : pyval) :
  crashes case = false -> exists l, report_line case = [Print l].
Proof.
  unfold crashes, report_line, judge.
  destruct (fields case) as [[[[h m] s] expected] | e]; [| discriminate].
  destruct (calculate_clock_angle h m s) as [actual | e].
  - destruct (is_correct_of actual expected) as [[|] | e]; try discriminate;
      intros _; now eexists.
  - destruct e; try discriminate. intros _. now eexists.
Qed.

Lemma count_pass_cons (case : pyval) (rest : list pyval) :
  count_pass (case :: rest) = (if is_pass case then 1 else 0) + count_pass rest.
Proof.
  unfold count_pass. cbn [filter]. destruct (is_pass case); cbn [List.length]; lia.
Qed.

Lemma count_pass_bounds (cases : list pyval) :
  0 <= count_pass cases <= Z.of_nat (List.length cases).
Proof.
  unfold count_pass. pose proof (filter_length_le is_pass cases). lia.
Qed.

(** The loop stops at the first record that crashes. *)
Lemma run_cases_crash (pre post : list pyval) (case : pyval) (e : pyexn) (passed : Z) :
  existsb crashes pre = false -> judge case = Crash e ->
  run_cases (pre ++ case :: post) passed = (flat_map report_line pre, Raise e).
Proof.
  revert passed. induction pre as [| c pre IH]; intros passed Hpre Hc.
  - cbn [app run_cases flat_map]. now rewrite (run_case_crash _ _ _ Hc).
  - cbn [existsb] in Hpre. apply orb_false_iff in Hpre. destruct Hpre as [Hc0 Hpre].
    cbn [app run_cases flat_map]. rewrite run_case_judge by assumption.
    unfold io_bind. now rewrite IH by assumption.
Qed.

Lemma first_crash (cases : list pyval) :
  existsb crashes cases = true ->
  exists pre case post e,
    cases = (pre ++ case :: post)%list
    /\ existsb crashes pre = false /\ judge case = Crash e.
Proof.
  induction cases as [| c rest IH]; [discriminate |].
  cbn [existsb]. destruct (crashes c) eqn:Hc.
  - intros _. destruct (crashes_judge _ Hc) as [e He].
    now exists [], c, rest, e.
  - cbn [orb]. intros Hrest. destruct (IH Hrest) as (pre & case & post & e & -> & Hpre & He).
    exists (c :: pre), case, post, e. repeat split; try assumption.
    cbn [existsb]. now rewrite Hc.
Qed.

Lemma run_cases_ok_no_crash (cases : list pyval) (passed n : Z) (out : list event) :
  run_cases cases passed = (out, Ok n) -> existsb crashes cases = false.
Proof.
  intros Hrun. destruct (existsb crashes cases) eqn:Hc; [| reflexivity].
  destruct (first_crash _ Hc) as (pre & case & post & e & -> & Hpre & He).
  rewrite (run_cases_crash _ _ _ _ _ Hpre He) in Hrun. discriminate.
Qed.

Lemma flat_map_report_length (cases : list pyval) :
  existsb crashes cases = false ->
  List.length (flat_map report_line cases) = List.length cases
  /\ forallb is_print (flat_map report_line cases) = true.
Proof.
  induction cases as [| c rest IH]; [now split |].
  cbn [existsb]. intros H. apply orb_false_iff in H. destruct H as [Hc Hrest].
  destruct (report_line_one _ Hc) as [l Hl]. destruct (IH Hrest) as [IHl IHp].
  cbn [flat_map]. rewrite Hl. cbn. now rewrite IHl, IHp.
Qed.

(** X3: when the loop runs to its end, it has printed exactly one line per
    record and nothing else, and the count of passes has grown by at least 0
    and at most the number of records. *)
Theorem run_cases_one_line_per_record
    (cases : list pyval) (passed n : Z) (out : list event) :
  run_cases cases passed = (out, Ok n) ->
  List.length out = List.length cases
  /\ forallb is_print out = true
  /\ passed <= n <= passed + Z.of_nat (List.length cases).
Proof.
  intros Hrun. pose proof (run_cases_ok_no_crash _ _ _ _ Hrun) as Hc.
  rewrite (run_cases_report _ _ Hc) in Hrun. injection Hrun as <- <-.
  destruct (flat_map_report_length _ Hc) as [Hl Hp].
  pose proof (count_pass_bounds cases). repeat split; try assumption; lia.
Qed.

Lemma run_cases_one_line_per_record_witness :
  List.length (fst (run_cases sample_cases 0)) = List.length sample_cases
  /\ forallb is_print (fst (run_cases sample_cases 0)) = true
  /\ 0 <= 1 <= 0 + Z.of_nat (List.length sample_cases).
Proof.
  apply (run_cases_one_line_per_record sample_cases 0 1). vm_compute. reflexivity.
Defined.



(** X5: a record in which [hours] is absent or null, or [minutes] is while
    hours is an [int] in range, or [expected_angle] is while the time is
    valid, crashes the run with [TypeError]. *)
Theorem judge_missing_field (case : pyval) (h m s expected : pyval)
    (hours minutes seconds : Z) :
  fields case = Ok (h, m, s, expected) ->
  (h = PNone -> judge case = Crash TypeError)
  /\ (h = PInt hours -> 0 <= hours <= 23 -> m = PNone -> judge case = Crash TypeError)
  /\ (h = PInt hours -> m = PInt minutes -> s = PInt seconds ->
      valid_time hours minutes seconds -> expected = PNone ->
      judge case = Crash TypeError).
Proof.
  intros Hf. unfold judge. rewrite Hf. split; [| split].
  - intros ->. now rewrite not_a_number_hours.
  - intros -> Hh ->. now rewrite not_a_number_minutes.
  - intros -> -> -> Hv ->. rewrite calculate_valid by assumption. reflexivity.
Qed.

Lemma judge_missing_field_witness :
  judge (PDict [("hours", PInt 3); ("minutes", PInt 0)]) = Crash TypeError.
Proof.
  apply (proj2 (proj2 (judge_missing_field
                         (PDict [("hours", PInt 3); ("minutes", PInt 0)])
                         (PInt 3) (PInt 0) (PInt 0) PNone 3 0 0 eq_refl)));
    try reflexivity.
  unfold valid_time. lia.
Defined.

Lemma find_app_none {A} (f : A -> bool) (l l' : list A) :
  find f l = None -> find f (l ++ l') = find f l'.
Proof.
  induction l as [| a l IH]; [reflexivity |].
  cbn [find app]. destruct (f a); [discriminate | exact IH].
Qed.

Lemma find_app_some {A} (f : A -> bool) (l l' : list A) (a : A) :
  find f l = Some a -> find f (l ++ l') = Some a.
Proof.
  induction l as [| b l IH]; [discriminate |].
  cbn [find app]. destruct (f b); [trivial | exact IH].
Qed.

Lemma dict_get_default_seconds (kvs : list (string * pyval)) (key : string) (d : pyval) :
  find (fun kv => String.eqb (fst kv) "seconds") kvs = None ->
  (key = "seconds" -> d = PInt 0) ->
  dict_get (PDict (kvs ++ [("seconds", PInt 0)])) key d = dict_get (PDict kvs) key d.
Proof.
  intros Hs Hd. cbn [dict_get]. f_equal.
  destruct (find (fun kv => String.eqb (fst kv) key) kvs) as [kv |] eqn:Hk.
  - now rewrite (find_app_some _ _ _ _ Hk).
  - rewrite (find_app_none _ _ _ Hk). cbn [find fst snd].
    destruct (String.eqb_spec "seconds" key) as [<- | Hne]; [| reflexivity].
    symmetry. now apply Hd.
Qed.

(** X6: [seconds] is optional: a record without the key is processed exactly
    as the same record with ["seconds": 0] added, line and count alike. *)
Theorem run_case_default_seconds (kvs : list (string * pyval)) (passed : Z) :
  find (fun kv => String.eqb (fst kv) "seconds") kvs = None ->
  run_case (PDict (kvs ++ [("seconds", PInt 0)])) passed = run_case (PDict kvs) passed.
Proof.
  intros Hs. unfold run_case.
  rewrite !(dict_get_default_seconds kvs) by (assumption || discriminate || reflexivity).
  reflexivity.
Qed.

Lemma run_case_default_seconds_witness :
  run_case (PDict ([("hours", PInt 9); ("minutes", PInt 0); ("expected_angle", PInt 90)]
                   ++ [("seconds", PInt 0)])) 0
  = run_case (PDict [("hours", PInt 9); ("minutes", PInt 0); ("expected_angle", PInt 90)]) 0.
Proof.
  apply (run_case_default_seconds
           [("hours", PInt 9); ("minutes", PInt 0); ("expected_angle", PInt 90)] 0).
  reflexivity.
Defined.

(** ** The whole run *)

Lemma run_cases_prints (cases : list pyval) (passed : Z) :
  forallb is_print (fst (run_cases cases passed)) = true.
Proof.
  destruct (existsb crashes cases) eqn:Hc.
  - destruct (first_crash _ Hc) as (pre & case & post & e & -> & Hpre & He).
    rewrite (run_cases_crash _ _ _ _ _ Hpre He). cbn [fst].
    apply (flat_map_report_length _ Hpre).
  - rewrite (run_cases_report _ _ Hc). cbn [fst].
    apply (flat_map_report_length _ Hc).
Qed.

Lemma count_logs_prints (out : list event) :
  forallb is_print out = true -> count_logs out = 0%nat.
Proof.
  unfold count_logs. induction out as [| [l | lvl msg] out IH]; cbn; try discriminate.
  - reflexivity.
  - exact IH.
Qed.

Lemma count_logs_app (out out' : list event) :
  count_logs (out ++ out') = (count_logs out + count_logs out')%nat.
Proof. unfold count_logs. now rewrite filter_app, length_app. Qed.

(** X7: whatever the file system and the file hold, a call that returns has
    logged exactly one message (the error about the file, or the summary)
    and a call that raises has logged none. *)
Theorem run_tests_one_log (w : world) (filepath : string) :
  count_logs (fst (run_tests_from_file w filepath))
  = match snd (run_tests_from_file w filepath) with
    | Ok _ => 1%nat
    | Raise _ => 0%nat
    end.
Proof.
  unfold run_tests_from_file.
  destruct (path_exists w filepath); cbn [negb]; [| reflexivity].
  destruct (load_json w filepath) as [test_cases | e].
  - unfold io_bind at 1. cbn [emit]. unfold io_bind at 1. cbn [emit].
    destruct (py_iter test_cases) as [cases | e].
    + rewrite io_bind_lift_ok. unfold io_bind at 1.
      pose proof (run_cases_prints cases 0) as Hp.
      destruct (run_cases cases 0) as [out [passed | e]]; cbn [fst] in Hp.
      * cbn [emit io_bind fst snd].
        change ([Print (Text header)] ++ [Print (Text separator)] ++ out
                ++ [Print (Text separator)] ++ [Log INFO _])%list
          with ([Print (Text header); Print (Text separator)] ++ out
                ++ [Print (Text separator); Log INFO
                      (summary passed (Z.of_nat (List.length cases)))])%list.
        rewrite !count_logs_app, (count_logs_prints _ Hp). reflexivity.
      * cbn [fst snd].
        change ([Print (Text header)] ++ [Print (Text separator)] ++ out)%list
          with ([Print (Text header); Print (Text separator)] ++ out)%list.
        rewrite count_logs_app, (count_logs_prints _ Hp). reflexivity.
    + reflexivity.
  - destruct e; reflexivity.
Qed.

(** X8: a file whose JSON is empty (an empty array, an empty object or an
    empty string) gives the header, the two separators, and the summary
    [0/0]. *)
Theorem run_tests_empty (w : world) (filepath : string) (test_cases : pyval) :
  path_exists w filepath = true ->
  load_json w filepath = Ok test_cases ->
  py_iter test_cases = Ok [] ->
  run_tests_from_file w filepath
  = ([Print (Text header); Print (Text separator); Print (Text separator);
      Log INFO "Test Run Complete: 0/0 passed."], Ok tt).
Proof.
  intros He Hl Hi. unfold run_tests_from_file. rewrite He, Hl. cbn [negb].
  rewrite Hi. reflexivity.
Qed.

Lemma run_tests_empty_witness :
  run_tests_from_file (one_file "clock_test_data.json" (Ok (PDict []))) "clock_test_data.json"
  = ([Print (Text header); Print (Text separator); Print (Text separator);
      Log INFO "Test Run Complete: 0/0 passed."], Ok tt).
Proof.
  apply (run_tests_empty _ "clock_test_data.json" (PDict [])); reflexivity.
Defined.

(** X9: a file whose JSON is not an array of objects makes the run raise
    right after the header and the separator: [TypeError] when the document
    is null, a boolean or a number (it cannot be iterated), [AttributeError]
    when the first item the loop gets is not an object (an array of
    non-objects, a non-empty object, whose keys are iterated, or a non-empty
    string). *)
Theorem run_tests_not_an_array_of_objects
    (w : world) (filepath : string) (test_cases : pyval) :
  path_exists w filepath = true ->
  load_json w filepath = Ok test_cases ->
  (py_iter test_cases = Raise TypeError ->
   run_tests_from_file w filepath
   = ([Print (Text header); Print (Text separator)], Raise TypeError))
  /\ (forall first rest,
        py_iter test_cases = Ok (first :: rest) -> is_dict first = false ->
        run_tests_from_file w filepath
        = ([Print (Text header); Print (Text separator)], Raise AttributeError)).
Proof.
  intros He Hl. split.
  - intros Hi. unfold run_tests_from_file. rewrite He, Hl. cbn [negb].
    rewrite Hi. reflexivity.
  - intros first rest Hi Hd. unfold run_tests_from_file. rewrite He, Hl. cbn [negb].
    rewrite Hi. unfold io_bind at 1. cbn [emit]. unfold io_bind at 1. cbn [emit].
    rewrite io_bind_lift_ok. unfold io_bind at 1.
    assert (Hc : judge first = Crash AttributeError)
      by (destruct first; try discriminate; reflexivity).
    change (first :: rest) with ([] ++ first :: rest)%list.
    rewrite (run_cases_crash [] rest first AttributeError 0 eq_refl Hc). reflexivity.
Qed.

Lemma run_tests_not_an_array_of_objects_witness :
  run_tests_from_file (one_file "clock_test_data.json" (Ok (PInt 42))) "clock_test_data.json"
  = ([Print (Text header); Print (Text separator)], Raise TypeError)
  /\ run_tests_from_file
       (one_file "clock_test_data.json" (Ok (PDict [("hours", PInt 3)])))
       "clock_test_data.json"
     = ([Print (Text header); Print (Text separator)], Raise AttributeError).
Proof.
  split.
  - apply (proj1 (run_tests_not_an_array_of_objects
                    (one_file "clock_test_data.json" (Ok (PInt 42)))
                    "clock_test_data.json" (PInt 42) eq_refl eq_refl)).
    reflexivity.
  - apply (proj2 (run_tests_not_an_array_of_objects
                    (one_file "clock_test_data.json" (Ok (PDict [("hours", PInt 3)])))
                    "clock_test_data.json" (PDict [("hours", PInt 3)]) eq_refl eq_refl)
             (PStr "hours") []); reflexivity.
Defined.

(** X10: only [JSONDecodeError] is handled when the file is opened and
    parsed: any other exception of that step leaves the function at once,
    with nothing printed and nothing logged. *)
Theorem run_tests_load_error (w : world) (filepath : string) (e : pyexn) :
  path_exists w filepath = true ->
  load_json w filepath = Raise e ->
  e <> JSONDecodeError ->
  run_tests_from_file w filepath = ([], Raise e).
Proof.
  intros He Hl Hne. unfold run_tests_from_file. rewrite He, Hl. cbn [negb].
  destruct e; try reflexivity. now contradiction Hne.
Qed.

Lemma run_tests_load_error_witness :
  run_tests_from_file
    (one_file "clock_test_data.json" (Raise (OtherError "UnicodeDecodeError")))
    "clock_test_data.json"
  = ([], Raise (OtherError "UnicodeDecodeError")).
Proof.
  apply (run_tests_load_error _ "clock_test_data.json"); try reflexivity. discriminate.
Defined.

(** ** Records are processed independently *)

(** X12: what a record prints, and whether it passes, fails, is rejected or
    crashes, does not depend on the count so far: started from another
    count, the turn of the loop prints the same and moves the count by the
    same amount. *)
Theorem run_case_count_independent (case : pyval) (passed passed' : Z) :
  fst (run_case case passed') = fst (run_case case passed)
  /\ match snd (run_case case passed), snd (run_case case passed') with
     | Ok n, Ok n' => n' - passed' = n - passed /\ 0 <= n - passed <= 1
     | Raise e, Raise e' => e' = e
     | _, _ => False
     end.
Proof.
  destruct (crashes case) eqn:Hc.
  - destruct (crashes_judge _ Hc) as [e He].
    rewrite !(run_case_crash _ _ _ He). now split.
  - rewrite !run_case_judge by assumption. cbn [fst snd].
    split; [reflexivity |]. destruct (is_pass case); lia.
Qed.

(** * Accuracy of [calculate_clock_angle] *)

Lemma arc_table : forallb arc_check (upto (Z.to_nat 21601)) = true.
Proof. vm_compute. reflexivity. Qed.

Lemma arc_check_sound (n : Z) :
  arc_check n = true ->
  arc_of_result (result_of_arc n) = n
  /\ exists q, Float64.to_Q (result_of_arc n) = Some q
               /\ (Qabs (q - (n # 120)) <= 51 # 1000000)%Q.
Proof.
  unfold arc_check, arc_of_result, Float64.to_Q.
  destruct (Prim2SF (result_of_arc n)) as [sg | sg | | [|] m e]; try discriminate.
  - intros H. apply Z.eqb_eq in H. subst n. split; [reflexivity |].
    exists 0%Q. split; [reflexivity |]. unfold Qle. cbn. lia.
  - intros H. apply andb_true_iff in H. destruct H as [H Hacc].
    apply andb_true_iff in H. destruct H as [He Hn].
    apply Z.ltb_lt in He. apply Z.eqb_eq in Hn. apply Z.leb_le in Hacc.
    split; [exact Hn |].
    replace (0 <=? e) with false by (symmetry; apply Z.leb_gt; lia).
    eexists. split; [reflexivity |].
    rewrite Z.shiftl_1_l in Hacc.
    assert (Hpos : 0 < 2 ^ (- e)) by (apply Z.pow_pos_nonneg; lia).
    unfold Qle, Qminus, Qplus, Qopp, Qabs. cbn [Qnum Qden].
    rewrite Pos2Z.inj_mul, Z2Pos.id by assumption.
    replace (Z.pos m * 120 + - n * 2 ^ (- e)) with (Z.pos m * 120 - n * 2 ^ (- e)) by lia.
    exact Hacc.
Qed.

Lemma spec_angle_arc (h m s : Z) :
  (Spec.angle h m s == arc120 (h mod 12) m s # 120)%Q.
Proof.
  unfold Spec.angle. rewrite spec_diff_closed. unfold arc120.
  set (t := 3600 * (h mod 12) - 660 * m - 11 * s).
  unfold Qmin, GenericMinMax.gmin, Qcompare, Qminus, Qplus, Qopp. cbn [Qnum Qden].
  destruct (Z.compare_spec (Z.abs (20 * t) * Z.pos (1 * 2400))
                           ((360 * 2400 + - Z.abs (20 * t) * 1) * 2400)) as [E | E | E];
    unfold Qeq; cbn [Qnum Qden]; lia.
Qed.

(** The float returned, as a function of the exact arc. *)
Lemma calculate_result_of_arc (hours minutes seconds : Z) :
  valid_time hours minutes seconds ->
  calculate_clock_angle (PInt hours) (PInt minutes) (PInt seconds)
  = Ok (NFloat (result_of_arc (arc120 (hours mod 12) minutes seconds)))
  /\ arc_check (arc120 (hours mod 12) minutes seconds) = true.
Proof.
  intros Hv. destruct (calculate_facts _ _ _ Hv) as (r & Hc & _ & Hq & _).
  destruct Hv as (Hh & Hm & Hs).
  assert (Ha : 0 <= hours mod 12 < 12) by (apply Z.mod_pos_bound; lia).
  split.
  - rewrite Hc, Hq, spec_round4_arc. reflexivity.
  - apply (upto_forallb _ _ arc_table).
    rewrite Z2Nat.id by lia. now apply arc120_bounds.
Qed.

(** X13: two valid times get the same float if and only if their exact
    angles are equal: rounding to 4 decimal places never merges two different
    angles of whole-second times, and float rounding never separates two
    times with the same angle. *)
Theorem calculate_clock_angle_same_angle (h m s h' m' s' : Z) :
  valid_time h m s -> valid_time h' m' s' ->
  (calculate_clock_angle (PInt h) (PInt m) (PInt s)
   = calculate_clock_angle (PInt h') (PInt m') (PInt s')
   <-> (Spec.angle h m s == Spec.angle h' m' s')%Q).
Proof.
  intros Hv Hv'.
  destruct (calculate_result_of_arc _ _ _ Hv) as [Hc Hk].
  destruct (calculate_result_of_arc _ _ _ Hv') as [Hc' Hk'].
  rewrite Hc, Hc', !spec_angle_arc.
  apply arc_check_sound in Hk, Hk'. destruct Hk as [Hn _], Hk' as [Hn' _].
  split.
  - intros H. injection H as H. rewrite <- Hn, <- Hn', H. reflexivity.
  - unfold Qeq. cbn [Qnum Qden]. intros H.
    replace (arc120 (h' mod 12) m' s') with (arc120 (h mod 12) m s) by lia.
    reflexivity.
Qed.

Lemma calculate_clock_angle_same_angle_witness :
  calculate_clock_angle (PInt 3) (PInt 0) (PInt 0)
  = calculate_clock_angle (PInt 21) (PInt 0) (PInt 0)
  <-> (Spec.angle 3 0 0 == Spec.angle 21 0 0)%Q.
Proof.
  apply (calculate_clock_angle_same_angle 3 0 0 21 0 0); unfold valid_time; lia.
Defined.

Lemma same_arc_same_result (h m s h' m' s' : Z) :
  valid_time h m s -> valid_time h' m' s' ->
  arc120 (h mod 12) m s = arc120 (h' mod 12) m' s' ->
  calculate_clock_angle (PInt h) (PInt m) (PInt s)
  = calculate_clock_angle (PInt h') (PInt m') (PInt s').
Proof.
  intros Hv Hv' Harc.
  rewrite (proj1 (calculate_result_of_arc _ _ _ Hv)).
  rewrite (proj1 (calculate_result_of_arc _ _ _ Hv')).
  now rewrite Harc.
Qed.

(** X14: a clock and its mirror image show the same angle: for a valid time
    with seconds not 0, the time that is as far before 12 o'clock as this
    one is after it gets the same float. *)
Theorem calculate_clock_angle_mirror (hours minutes seconds : Z) :
  valid_time hours minutes seconds -> 1 <= seconds ->
  calculate_clock_angle (PInt (11 - hours mod 12)) (PInt (59 - minutes))
                        (PInt (60 - seconds))
  = calculate_clock_angle (PInt hours) (PInt minutes) (PInt seconds).
Proof.
  intros Hv Hs1.
  assert (Ha : 0 <= hours mod 12 < 12) by (apply Z.mod_pos_bound; lia).
  assert (Hv' : valid_time (11 - hours mod 12) (59 - minutes) (60 - seconds))
    by (unfold valid_time in *; lia).
  apply same_arc_same_result; try assumption.
  rewrite (Z.mod_small (11 - hours mod 12)) by lia.
  unfold arc120. lia.
Qed.

Lemma calculate_clock_angle_mirror_witness :
  calculate_clock_angle (PInt (11 - 14 mod 12)) (PInt (59 - 20)) (PInt (60 - 15))
  = calculate_clock_angle (PInt 14) (PInt 20) (PInt 15).
Proof.
  apply (calculate_clock_angle_mirror 14 20 15); unfold valid_time; lia.
Defined.

(** X15: accuracy: on every valid input the float returned is finite and its
    exact value is within 0.000051 of the exact angle (half a unit of the
    fourth decimal place, plus the error of reading the decimal as a float). *)
Theorem calculate_clock_angle_accuracy (hours minutes seconds : Z) :
  valid_time hours minutes seconds ->
  exists (r : float) (q : Q),
    calculate_clock_angle (PInt hours) (PInt minutes) (PInt seconds) = Ok (NFloat r)
    /\ Float64.to_Q r = Some q
    /\ (Qabs (q - Spec.angle hours minutes seconds) <= 51 # 1000000)%Q.
Proof.
  intros Hv. destruct (calculate_result_of_arc _ _ _ Hv) as [Hc Hk].
  apply arc_check_sound in Hk. destruct Hk as (_ & q & Hq & Hacc).
  exists (result_of_arc (arc120 (hours mod 12) minutes seconds)), q.
  repeat split; try assumption. now rewrite spec_angle_arc.
Qed.

Lemma calculate_clock_angle_accuracy_witness :
  exists (r : float) (q : Q),
    calculate_clock_angle (PInt 13) (PInt 17) (PInt 43) = Ok (NFloat r)
    /\ Float64.to_Q r = Some q
    /\ (Qabs (q - Spec.angle 13 17 43) <= 51 # 1000000)%Q.
Proof.
  apply (calculate_clock_angle_accuracy 13 17 43). unfold valid_time. lia.
Defined.

(** X16: on a valid input the function returns exactly 0.0 only when the
    hands coincide, which at whole seconds happens at 0:00:00 and 12:00:00
    only. *)
Theorem calculate_clock_angle_zero (hours minutes seconds : Z) :
  valid_time hours minutes seconds ->
  (calculate_clock_angle (PInt hours) (PInt minutes) (PInt seconds) = Ok (NFloat 0)
   <-> hours mod 12 = 0 /\ minutes = 0 /\ seconds = 0).
Proof.
  intros Hv. destruct (calculate_result_of_arc _ _ _ Hv) as [Hc Hk].
  apply arc_check_sound in Hk. destruct Hk as [Hn _].
  destruct Hv as (Hh & Hm & Hs).
  assert (Ha : 0 <= hours mod 12 < 12) by (apply Z.mod_pos_bound; lia).
  rewrite Hc. split.
  - intros H. injection H as H. rewrite H in Hn.
    change (arc_of_result 0) with 0 in Hn. unfold arc120 in Hn. lia.
  - intros (-> & -> & ->). reflexivity.
Qed.

Lemma calculate_clock_angle_zero_witness :
  calculate_clock_angle (PInt 12) (PInt 0) (PInt 0) = Ok (NFloat 0)
  <-> 12 mod 12 = 0 /\ 0 = 0 /\ 0 = 0.
Proof.
  apply (calculate_clock_angle_zero 12 0 0). unfold valid_time. lia.
Defined.

(** X17: on a valid input the function returns exactly 180.0 only when the
    hands are opposite, which at whole seconds happens at 6:00:00 and
    18:00:00 only. *)
Theorem calculate_clock_angle_straight (hours minutes seconds : Z) :
  valid_time hours minutes seconds ->
  (calculate_clock_angle (PInt hours) (PInt minutes) (PInt seconds) = Ok (NFloat 180)
   <-> hours mod 12 = 6 /\ minutes = 0 /\ seconds = 0).
Proof.
  intros Hv. destruct (calculate_result_of_arc _ _ _ Hv) as [Hc Hk].
  apply arc_check_sound in Hk. destruct Hk as [Hn _].
  destruct Hv as (Hh & Hm & Hs).
  assert (Ha : 0 <= hours mod 12 < 12) by (apply Z.mod_pos_bound; lia).
  rewrite Hc. split.
  - intros H. injection H as H. rewrite H in Hn.
    replace (arc_of_result 180) with 21600 in Hn by (vm_compute; reflexivity).
    unfold arc120 in Hn. lia.
  - intros (-> & -> & ->). vm_compute. reflexivity.
Qed.

Lemma calculate_clock_angle_straight_witness :
  calculate_clock_angle (PInt 18) (PInt 0) (PInt 0) = Ok (NFloat 180)
  <-> 18 mod 12 = 6 /\ 0 = 0 /\ 0 = 0.
Proof.
  apply (calculate_clock_angle_straight 18 0 0). unfold valid_time. lia.
Defined.

(** ** The calculator against its own output *)

Lemma SFsub_self_finite (s : bool) (m : positive) (e : Z) :
  SF64sub (S754_finite s m e) (S754_finite s m e) = S754_zero false.
Proof. unfold SF64sub, SFsub. now rewrite Z.sub_diag. Qed.

Lemma finite_minus_itself (r : float) (q : Q) :
  Float64.to_Q r = Some q -> (abs (r - r) <? 0.01)%float = true.
Proof.
  unfold Float64.to_Q. intros Hq.
  rewrite ltb_spec, abs_spec, sub_spec.
  destruct (Prim2SF r) as [[|] | sg | | s m e]; try discriminate.
  - reflexivity.
  - reflexivity.
  - rewrite SFsub_self_finite. reflexivity.
Qed.

(** X18: a fixture record whose expected angle is the float the calculator
    returns for its time is always classified PASS. *)
Theorem own_output_passes (hours minutes seconds : Z) :
  valid_time hours minutes seconds ->
  exists r : float,
    calculate_clock_angle (PInt hours) (PInt minutes) (PInt seconds) = Ok (NFloat r)
    /\ judge (record hours minutes seconds r) = Pass (NFloat r).
Proof.
  intros Hv. destruct (calculate_result_of_arc _ _ _ Hv) as [Hc Hk].
  apply arc_check_sound in Hk. destruct Hk as (_ & q & Hq & _).
  eexists. split; [exact Hc |]. unfold judge.
  set (r := result_of_arc (arc120 (hours mod 12) minutes seconds)) in *.
  change (fields (record hours minutes seconds r))
    with (Ok (A := pyval * pyval * pyval * pyval)
             (PInt hours, PInt minutes, PInt seconds, PFloat r)).
  cbv beta iota. rewrite Hc.
  unfold is_correct_of. cbn [numeric as_num bind num_sub to_float num_abs num_lt].
  now rewrite (finite_minus_itself _ _ Hq).
Qed.

Lemma own_output_passes_witness :
  exists r : float,
    calculate_clock_angle (PInt 7) (PInt 45) (PInt 10) = Ok (NFloat r)
    /\ judge (record 7 45 10 r) = Pass (NFloat r).
Proof.
  apply (own_output_passes 7 45 10). unfold valid_time. lia.
Defined.

Lemma round_to_third_bounds (n : Z) :
  0 <= n <= 21600 -> 0 <= Float64.round_half_even (250 * n) 3 <= 1800000.
Proof.
  intros Hn. unfold Float64.round_half_even.
  pose proof (Z.mod_pos_bound (250 * n) 3 ltac:(lia)) as Hr.
  pose proof (Z.div_mod (250 * n) 3 ltac:(lia)) as Hd.
  destruct (2 * ((250 * n) mod 3) ?= 3) eqn:E.
  - apply Z.compare_eq in E. exfalso. lia.
  - lia.
  - apply Z.compare_gt_iff in E. lia.
Qed.

(** X19: on every valid input the float returned has at most 4 decimal
    places: it is the float nearest to [k / 10000] for an integer [k] with
    [0 <= k <= 1800000]. *)
Theorem calculate_clock_angle_four_decimals (hours minutes seconds : Z) :
  valid_time hours minutes seconds ->
  exists k : Z,
    0 <= k <= 1800000
    /\ calculate_clock_angle (PInt hours) (PInt minutes) (PInt seconds)
       = Ok (NFloat (Spec.nearest_float k)).
Proof.
  intros Hv. destruct (calculate_result_of_arc _ _ _ Hv) as [Hc _].
  destruct Hv as (Hh & Hm & Hs).
  assert (Ha : 0 <= hours mod 12 < 12) by (apply Z.mod_pos_bound; lia).
  exists (Float64.round_half_even (250 * arc120 (hours mod 12) minutes seconds) 3).
  split; [| exact Hc].
  apply round_to_third_bounds.
  pose proof (arc120_bounds _ _ _ Ha Hm Hs). lia.
Qed.

Lemma calculate_clock_angle_four_decimals_witness :
  exists k : Z,
    0 <= k <= 1800000
    /\ calculate_clock_angle (PInt 1) (PInt 2) (PInt 3) = Ok (NFloat (Spec.nearest_float k)).
Proof.
  apply (calculate_clock_angle_four_decimals 1 2 3). unfold valid_time. lia.
Defined.

(** ** Numbers written as floats or booleans *)

Lemma float_table : forallb float_check (upto 60) = true.
Proof. vm_compute. reflexivity. Qed.

Lemma float_facts (z : Z) :
  0 <= z <= 59 ->
  Float64.int_le 0 (cvt z) = true
  /\ Float64.le_int (cvt z) 23 = (z <=? 23)
  /\ Float64.le_int (cvt z) 59 = true
  /\ Float64.py_mod (cvt z) (cvt 12) = cvt (z mod 12)
  /\ (cvt z * cvt 30)%float = cvt (z * 30)
  /\ (cvt z * cvt 6)%float = cvt (z * 6).
Proof.
  intros Hz. pose proof (upto_forallb _ _ float_table z ltac:(cbn; lia)) as H.
  unfold float_check in H. rewrite !andb_true_iff in H.
  destruct H as (((((H1 & H2) & H3) & H4) & H5) & H6).
  apply Bool.eqb_prop in H2. apply FloatAxioms.Leibniz.eqb_spec in H4, H5, H6.
  repeat split; assumption.
Qed.

Lemma same_number_rep (v : pyval) (z : Z) :
  same_number v z -> exists n, as_num v = Some n /\ rep n z.
Proof.
  intros [H | ->].
  - exists (NInt z). split; [exact H | now left].
  - exists (NFloat (cvt z)). split; [reflexivity | now right].
Qed.

Lemma rep_between (v : pyval) (n : num) (z hi : Z) :
  as_num v = Some n -> rep n z -> 0 <= z <= hi -> hi = 23 \/ hi = 59 ->
  between 0 v hi = Ok true /\ numeric v = Ok n.
Proof.
  intros Hv Hn Hz Hhi. unfold between, numeric. rewrite Hv. cbn [bind].
  split; [| reflexivity].
  destruct Hn as [-> | ->]; cbn [num_le].
  - replace (0 <=? z) with true by (symmetry; apply Z.leb_le; lia).
    replace (z <=? hi) with true by (symmetry; apply Z.leb_le; lia). reflexivity.
  - destruct (float_facts z ltac:(lia)) as (H0 & H23 & H59 & _).
    rewrite H0. destruct Hhi as [-> | ->].
    + rewrite H23. replace (z <=? 23) with true by (symmetry; apply Z.leb_le; lia).
      reflexivity.
    + now rewrite H59.
Qed.

Lemma rep_mod (n : num) (z : Z) :
  rep n z -> 0 <= z <= 23 ->
  exists n', num_mod n (NInt 12) = Ok n' /\ rep n' (z mod 12).
Proof.
  intros [-> | ->] Hz.
  - exists (NInt (z mod 12)). split; [reflexivity | now left].
  - exists (NFloat (cvt (z mod 12))). split; [| now right].
    unfold num_mod. cbn [num_is_zero Z.eqb to_float bind].
    rewrite of_int_small by lia. cbn [bind].
    now destruct (float_facts z ltac:(lia)) as (_ & _ & _ & -> & _).
Qed.

Lemma rep_mul_int (n : num) (z c : Z) :
  rep n z -> 0 <= z <= 59 -> c = 30 \/ c = 6 ->
  exists n', num_mul n (NInt c) = Ok n' /\ rep n' (z * c).
Proof.
  intros [-> | ->] Hz Hc.
  - exists (NInt (z * c)). split; [reflexivity | now left].
  - exists (NFloat (cvt (z * c))). split; [| now right].
    unfold num_mul. cbn [to_float bind]. rewrite of_int_small by lia. cbn [bind].
    destruct (float_facts z Hz) as (_ & _ & _ & _ & H30 & H6).
    destruct Hc as [-> | ->]; now rewrite ?H30, ?H6.
Qed.

Lemma rep_mul_float (n : num) (z : Z) (f : float) :
  rep n z -> 0 <= z <= 360 -> num_mul n (NFloat f) = Ok (NFloat (cvt z * f)).
Proof. intros [-> | ->] Hz; [now apply mul_int_float | reflexivity]. Qed.

Lemma rep_add_float (n : num) (z : Z) (f : float) :
  rep n z -> 0 <= z <= 360 -> num_add n (NFloat f) = Ok (NFloat (cvt z + f)).
Proof. intros [-> | ->] Hz; [now apply add_int_float | reflexivity]. Qed.

Lemma hour_angle_rep (na nm ns : num) (a m s : Z) :
  rep na a -> rep nm m -> rep ns s ->
  0 <= a < 12 -> 0 <= m <= 59 -> 0 <= s <= 59 ->
  hour_angle_of na nm ns = Ok (NFloat (prim_hour_angle a m s)).
Proof.
  intros Ra Rm Rs Ha Hm Hs. unfold hour_angle_of, prim_hour_angle.
  destruct (rep_mul_int na a 30 Ra ltac:(lia) ltac:(now left)) as (a30 & -> & R30).
  cbn [bind]. rewrite (rep_mul_float nm m) by (assumption || lia). cbn [bind].
  rewrite (rep_add_float a30 (a * 30)) by (assumption || lia). cbn [bind].
  rewrite div_float_int by lia. cbn [bind].
  rewrite (rep_mul_float ns s) by (assumption || lia). reflexivity.
Qed.

Lemma minute_angle_rep (nm ns : num) (m s : Z) :
  rep nm m -> rep ns s -> 0 <= m <= 59 -> 0 <= s <= 59 ->
  minute_angle_of nm ns = Ok (NFloat (prim_minute_angle m s)).
Proof.
  intros Rm Rs Hm Hs. unfold minute_angle_of, prim_minute_angle.
  destruct (rep_mul_int nm m 6 Rm Hm ltac:(now right)) as (m6 & -> & R6).
  cbn [bind]. rewrite (rep_mul_float ns s) by (assumption || lia). cbn [bind].
  now rewrite (rep_add_float m6 (m * 6)) by (assumption || lia).
Qed.

(** X20: the angle depends on the numeric value of the arguments only, not
    on their Python type: for a valid time, each argument may be given as the
    [int], as the float of the same value ([3.0] for [3]) or, for 0 and 1,
    as [False] and [True], and the result is the same float. *)
Theorem calculate_clock_angle_number_types
    (vh vm vs : pyval) (hours minutes seconds : Z) :
  valid_time hours minutes seconds ->
  same_number vh hours -> same_number vm minutes -> same_number vs seconds ->
  calculate_clock_angle vh vm vs
  = calculate_clock_angle (PInt hours) (PInt minutes) (PInt seconds).
Proof.
  intros Hv Sh Sm Ss. rewrite (calculate_valid _ _ _ Hv).
  destruct Hv as (Hh & Hm & Hs).
  destruct (same_number_rep _ _ Sh) as (nh & Ah & Rh).
  destruct (same_number_rep _ _ Sm) as (nm & Am & Rm).
  destruct (same_number_rep _ _ Ss) as (ns & As & Rs).
  destruct (rep_between vh nh hours 23 Ah Rh Hh ltac:(now left)) as [Bh Nh].
  destruct (rep_between vm nm minutes 59 Am Rm Hm ltac:(now right)) as [Bm Nm].
  destruct (rep_between vs ns seconds 59 As Rs Hs ltac:(now right)) as [Bs Ns].
  unfold calculate_clock_angle. rewrite Bh, Bm, Bs, Nh, Nm, Ns. cbn [bind].
  destruct (rep_mod nh hours Rh Hh) as (na & -> & Ra). cbn [bind].
  assert (Ha : 0 <= hours mod 12 < 12) by (apply Z.mod_pos_bound; lia).
  rewrite (hour_angle_rep na nm ns (hours mod 12) minutes seconds) by assumption.
  rewrite (minute_angle_rep nm ns minutes seconds) by assumption. cbn [bind].
  apply smallest_angle_floats.
Qed.

Lemma calculate_clock_angle_number_types_witness :
  calculate_clock_angle (PFloat (cvt 13)) (PBool true) (PFloat (cvt 30))
  = calculate_clock_angle (PInt 13) (PInt 1) (PInt 30).
Proof.
  apply (calculate_clock_angle_number_types _ _ _ 13 1 30).
  - unfold valid_time. lia.
  - right. reflexivity.
  - left. reflexivity.
  - right. reflexivity.
Defined.

(** ** What can be raised *)

Lemma between_outcome (v : pyval) (hi : Z) :
  between 0 v hi = Raise TypeError
  \/ between 0 v hi = Ok false
  \/ (between 0 v hi = Ok true /\ exists n, numeric v = Ok n /\ in_range n hi).
Proof.
  unfold between, numeric. destruct (as_num v) as [n |]; cbn [bind]; [| now left].
  right. destruct (num_le (NInt 0) n) eqn:H0; [| now left].
  destruct (num_le n (NInt hi)) eqn:H1; [| now left].
  right. split; [reflexivity |]. exists n. split; [reflexivity |].
  destruct n as [z | f]; cbn [in_range num_le] in *; [lia | exact I].
Qed.

Section InRange.
Variables (n : num) (hi : Z).
Hypothesis Hn : in_range n hi.
Hypothesis Hhi : hi <= 360.

Lemma mul_float_in_range (f : float) : exists g, num_mul n (NFloat f) = Ok (NFloat g).
Proof.
  destruct n as [z | x]; cbn [in_range] in *.
  - eexists. apply mul_int_float. lia.
  - now eexists.
Qed.

Lemma add_float_in_range (f : float) : exists g, num_add n (NFloat f) = Ok (NFloat g).
Proof.
  destruct n as [z | x]; cbn [in_range] in *.
  - eexists. apply add_int_float. lia.
  - now eexists.
Qed.

Lemma mul_int_in_range (c : Z) :
  0 <= c <= 360 -> exists n', num_mul n (NInt c) = Ok n' /\ in_range n' (hi * c).
Proof.
  intros Hc. destruct n as [z | x]; cbn [in_range] in *.
  - exists (NInt (z * c)). split; [reflexivity |]. cbn [in_range]. nia.
  - exists (NFloat (x * cvt c)). split; [| exact I].
    unfold num_mul. cbn [to_float bind]. now rewrite of_int_small by lia.
Qed.
End InRange.

Lemma mod_12_in_range (n : num) :
  in_range n 23 -> exists n', num_mod n (NInt 12) = Ok n' /\ in_range n' 11.
Proof.
  intros Hn. destruct n as [z | x]; cbn [in_range] in *.
  - exists (NInt (z mod 12)). split; [reflexivity |]. cbn [in_range].
    pose proof (Z.mod_pos_bound z 12). lia.
  - exists (NFloat (Float64.py_mod x (cvt 12))). split; [| exact I].
    unfold num_mod. cbn [num_is_zero Z.eqb to_float bind].
    now rewrite of_int_small by lia.
Qed.

(** Past the three checks nothing is raised, and the value is a float. *)
Lemma body_returns_float (nh nm ns : num) :
  in_range nh 23 -> in_range nm 59 -> in_range ns 59 ->
  exists r : float,
    (adjusted_hours <- num_mod nh (NInt 12) ;;
     hour_angle <- hour_angle_of adjusted_hours nm ns ;;
     minute_angle <- minute_angle_of nm ns ;;
     smallest_angle hour_angle minute_angle)%py = Ok (NFloat r).
Proof.
  intros Hh Hm Hs.
  destruct (mod_12_in_range nh Hh) as (na & -> & Ha). cbn [bind].
  unfold hour_angle_of, minute_angle_of.
  destruct (mul_int_in_range na 11 Ha ltac:(lia) 30 ltac:(lia)) as (a30 & -> & H30). cbn [bind].
  destruct (mul_float_in_range nm 59 Hm ltac:(lia) 0.5) as (b & ->). cbn [bind].
  destruct (add_float_in_range a30 (11 * 30) H30 ltac:(lia) b) as (ab & ->). cbn [bind].
  rewrite div_float_int by lia. cbn [bind].
  destruct (mul_float_in_range ns 59 Hs ltac:(lia) (0.5 / cvt 60)) as (c & ->).
  cbn [bind num_add to_float].
  destruct (mul_int_in_range nm 59 Hm ltac:(lia) 6 ltac:(lia)) as (m6 & -> & H6). cbn [bind].
  destruct (mul_float_in_range ns 59 Hs ltac:(lia) 0.1) as (d & ->). cbn [bind].
  destruct (add_float_in_range m6 (59 * 6) H6 ltac:(lia) d) as (ma & ->). cbn [bind].
  rewrite smallest_angle_floats. now eexists.
Qed.

Lemma calculate_outcome_cases (hours minutes seconds : pyval) :
  (exists r : float, calculate_clock_angle hours minutes seconds = Ok (NFloat r))
  \/ calculate_clock_angle hours minutes seconds = Raise TypeError
  \/ exists msg v,
       calculate_clock_angle hours minutes seconds = Raise (ValueError msg v)
       /\ (v = hours \/ v = minutes \/ v = seconds).
Proof.
  unfold calculate_clock_angle.
  destruct (between_outcome hours 23) as [-> | [-> | (-> & nh & -> & Hh)]]; cbn [bind].
  - right. now left.
  - right. right. eexists _, _. split; [reflexivity | now left].
  - destruct (between_outcome minutes 59) as [-> | [-> | (-> & nm & -> & Hm)]]; cbn [bind].
    + right. now left.
    + right. right. eexists _, _. split; [reflexivity | right; now left].
    + destruct (between_outcome seconds 59) as [-> | [-> | (-> & ns & -> & Hs)]];
        cbn [bind].
      * right. now left.
      * right. right. eexists _, _. split; [reflexivity | right; now right].
      * left. now apply body_returns_float.
Qed.

(** X21: whatever JSON values it is given, [calculate_clock_angle] returns
    nothing but a float and raises nothing but [TypeError] and [ValueError],
    the latter carrying one of its three arguments. *)
Theorem calculate_clock_angle_outcomes (hours minutes seconds : pyval) :
  (forall n, calculate_clock_angle hours minutes seconds = Ok n ->
             exists r : float, n = NFloat r)
  /\ (forall e, calculate_clock_angle hours minutes seconds = Raise e ->
                e = TypeError
                \/ exists msg v, e = ValueError msg v
                                 /\ (v = hours \/ v = minutes \/ v = seconds)).
Proof.
  destruct (calculate_outcome_cases hours minutes seconds)
    as [(r & ->) | [-> | (msg & v & -> & Hv)]]; split.
  - intros n H. injection H as <-. now exists r.
  - discriminate.
  - discriminate.
  - intros e H. injection H as <-. now left.
  - discriminate.
  - intros e H. injection H as <-. right. now exists msg, v.
Qed.

Lemma calculate_clock_angle_outcomes_witness :
  exists r : float, NFloat 90 = NFloat r.
Proof.
  apply (proj1 (calculate_clock_angle_outcomes (PFloat 3) (PBool false) (PInt 0))).
  vm_compute. reflexivity.
Defined.



(** ** Well-formed fixtures *)

Lemma run_tests_report (w : world) (filepath : string) (cases : list pyval) :
  path_exists w filepath = true ->
  load_json w filepath = Ok (PList cases) ->
  existsb crashes cases = false ->
  run_tests_from_file w filepath
  = (([Print (Text header); Print (Text separator)]
        ++ flat_map report_line cases
        ++ [Print (Text separator);
            Log INFO (summary (count_pass cases) (Z.of_nat (List.length cases)))])%list,
     Ok tt).
Proof.
  intros He Hl Hc. unfold run_tests_from_file. rewrite He, Hl. cbn [negb py_iter].
  unfold io_bind at 1. cbn [emit]. unfold io_bind at 1. cbn [emit].
  rewrite io_bind_lift_ok. unfold io_bind at 1.
  rewrite run_cases_report by assumption. cbn [emit io_bind].
  rewrite Z.add_0_l. reflexivity.
Qed.

Lemma records_never_crash (rows : list (Z * Z * Z * float)) :
  existsb crashes (map (fun '(h, m, s, e) => record h m s e) rows) = false.
Proof.
  induction rows as [| [[[h m] s] e] rows IH]; [reflexivity |].
  cbn [map existsb]. now rewrite record_never_crashes, IH.
Qed.

(** X23: a fixture file that is an array of objects with [int] hours,
    minutes and seconds and a float expected angle never makes the runner
    raise, whatever the numbers are: every record gets its line (a row, or
    the error line when the time is out of range) and the summary is
    logged. *)
Theorem run_tests_well_formed
    (w : world) (filepath : string) (rows : list (Z * Z * Z * float)) :
  let cases := map (fun '(h, m, s, e) => record h m s e) rows in
  path_exists w filepath = true ->
  load_json w filepath = Ok (PList cases) ->
  run_tests_from_file w filepath
  = (([Print (Text header); Print (Text separator)]
        ++ flat_map report_line cases
        ++ [Print (Text separator);
            Log INFO (summary (count_pass cases) (Z.of_nat (List.length rows)))])%list,
     Ok tt).
Proof.
  intros cases He Hl.
  rewrite (run_tests_report w filepath cases He Hl (records_never_crash rows)).
  unfold cases. now rewrite length_map.
Qed.

Lemma run_tests_well_formed_witness :
  run_tests_from_file
    (one_file "clock_test_data.json"
       (Ok (PList (map (fun '(h, m, s, e) => record h m s e)
                       [(3, 0, 0, 90%float); (-1, 70, 0, 0%float)]))))
    "clock_test_data.json"
  = (([Print (Text header); Print (Text separator)]
        ++ flat_map report_line
             (map (fun '(h, m, s, e) => record h m s e)
                  [(3, 0, 0, 90%float); (-1, 70, 0, 0%float)])
        ++ [Print (Text separator);
            Log INFO (summary
                        (count_pass (map (fun '(h, m, s, e) => record h m s e)
                                         [(3, 0, 0, 90%float); (-1, 70, 0, 0%float)]))
                        (Z.of_nat (List.length [(3, 0, 0, 90%float); (-1, 70, 0, 0%float)])))])%list,
     Ok tt).
Proof.
  apply (run_tests_well_formed _ "clock_test_data.json"
           [(3, 0, 0, 90%float); (-1, 70, 0, 0%float)]); reflexivity.
Defined.

(** X24: the expected angle may be written as an integer: for an [int] (or
    a [bool]) of value [z] between 0 and 360 the comparison of line 84 gives
    what it gives for the float of the same value. *)
Theorem expected_angle_as_int (actual : float) (expected : pyval) (z : Z) :
  same_number expected z -> 0 <= z <= 360 ->
  is_correct_of (NFloat actual) expected
  = Ok (abs (actual - cvt z) <? 0.01)%float.
Proof.
  intros [Hn | ->] Hz.
  - unfold is_correct_of, numeric. rewrite Hn. cbn [bind num_sub to_float].
    rewrite of_int_small by assumption. reflexivity.
  - reflexivity.
Qed.

Lemma expected_angle_as_int_witness :
  is_correct_of (NFloat 90) (PInt 90) = Ok (abs (90 - cvt 90) <? 0.01)%float.
Proof.
  apply (expected_angle_as_int 90 (PInt 90) 90); [left; reflexivity | lia].
Defined.
